(** * Programs/metadata.py: the media validation engine

    A shallow embedding of [flatten_dict], [run_ffprobe],
    [validate_url_entry], [save_results_to_csv] and the resume and harvest
    loops of [main], and the properties of the design document that they
    decide.

    Python values are an inductive type, Python dictionaries are
    insertion-ordered association lists, exceptions are a result type and
    the network and the probe subprocess are an oracle whose calls are
    recorded in a trace. *)

From Stdlib Require Import ZArith Ascii.
From Stdlib Require Floats.SpecFloat Strings.Byte.
From stdpp Require Import base decidable option list strings pretty sorting.

Local Open Scope Z_scope.

(** ** Python values *)

(** The values that [json.loads] builds, which are also the values held by
    the records of the program: [None], booleans, integers, floats (IEEE
    binary64, as a specification float), strings, lists and dictionaries. *)
#[local] Unset Elimination Schemes.
Inductive pyval : Type :=
| VNone
| VBool (b : bool)
| VInt (n : Z)
| VFloat (x : SpecFloat.spec_float)
| VStr (s : string)
| VList (xs : list pyval)
| VDict (items : list (string * pyval)).
#[local] Set Elimination Schemes.

(** ** Insertion-ordered dictionaries *)

Module PyDict.
Section Dict.
Context {K V : Type} `{EqDecision K}.

(** [d.get(k)] *)
Fixpoint get (k : K) (d : list (K * V)) : option V :=
  match d with
  | [] => None
  | (k', v) :: d' => if decide (k' = k) then Some v else get k d'
  end.

(** [k in d] *)
Definition mem (k : K) (d : list (K * V)) : bool :=
  match get k d with Some _ => true | None => false end.

(** [d[k] = v]: an existing key keeps its position, a new one goes last. *)
Fixpoint set (k : K) (v : V) (d : list (K * V)) : list (K * V) :=
  match d with
  | [] => [(k, v)]
  | (k', v') :: d' =>
      if decide (k' = k) then (k', v) :: d' else (k', v') :: set k v d'
  end.

(** [d.update(items)] *)
Definition update (d items : list (K * V)) : list (K * V) :=
  foldl (fun acc kv => set kv.1 kv.2 acc) d items.

(** [dict(items)] *)
Definition of_items (items : list (K * V)) : list (K * V) :=
  update [] items.

(** [d.keys()] and [d.values()] *)
Definition keys (d : list (K * V)) : list K := d.*1.
Definition values (d : list (K * V)) : list V := d.*2.
End Dict.
End PyDict.

(** A dictionary with string keys: a JSON object, a row, a record. *)
Abbreviation pydict V := (list (string * V)).

(** ** Strings *)

(** [sub in s] for two strings. *)
Fixpoint contains (sub s : string) : bool :=
  String.prefix sub s ||
  match s with
  | EmptyString => false
  | String _ s' => contains sub s'
  end.

(** The text of a [str] is held as UTF-8: a character is a byte that is
    not a continuation byte ([10xxxxxx]) together with the continuation
    bytes that follow it. *)
Definition is_continuation (c : Ascii.ascii) : bool :=
  match c with
  | Ascii.Ascii _ _ _ _ _ _ false true => true
  | _ => false
  end.

(** [s[:n]]: the first [n] characters of [s]. *)
Fixpoint str_take (n : nat) (s : string) : string :=
  match s with
  | EmptyString => EmptyString
  | String c s' =>
      if is_continuation c then String c (str_take n s')
      else match n with
           | O => EmptyString
           | S n' => String c (str_take n' s')
           end
  end.

(** ** [flatten_dict] *)

(** [parent_key + sep + k if parent_key else k] *)
Definition new_key (parent_key sep k : string) : string :=
  if decide (parent_key = "") then k else parent_key +:+ sep +:+ k.

(** What one turn of the loop of [flatten_dict] adds to [items] for the
    entry whose key path is [key]: the items of the recursive call when the
    value is a dictionary, the entry itself otherwise. *)
Fixpoint flatten_entry (sep key : string) (v : pyval) {struct v}
  : list (string * pyval) :=
  match v with
  | VDict d =>
      PyDict.of_items
        ((fix loop (d : list (string * pyval)) : list (string * pyval) :=
            match d with
            | [] => []
            | (k, v') :: d' => flatten_entry sep (new_key key sep k) v' ++ loop d'
            end) d)
  | _ => [(key, v)]
  end.

(** The list [items] at the end of the loop. *)
Definition flatten_items (d : list (string * pyval)) (parent_key sep : string)
  : list (string * pyval) :=
  flat_map (fun kv => flatten_entry sep (new_key parent_key sep kv.1) kv.2) d.

Definition flatten_dict (d : list (string * pyval)) (parent_key : string)
    (sep : string) : list (string * pyval) :=
  PyDict.of_items (flatten_items d parent_key sep).

(** ** Python operations on values *)

(** [bool(v)] *)
Definition truthy (v : pyval) : bool :=
  match v with
  | VNone => false
  | VBool b => b
  | VInt n => negb (n =? 0)
  | VFloat (SpecFloat.S754_zero _) => false
  | VFloat _ => true
  | VStr s => negb (bool_decide (s = ""))
  | VList xs => negb (bool_decide (xs = []))
  | VDict d => negb (bool_decide (d = []))
  end.

(** [type(v).__name__] *)
Definition type_name (v : pyval) : string :=
  match v with
  | VNone => "NoneType"
  | VBool _ => "bool"
  | VInt _ => "int"
  | VFloat _ => "float"
  | VStr _ => "str"
  | VList _ => "list"
  | VDict _ => "dict"
  end.

(** Exceptions, by the two handlers of [run_ffprobe] that tell them apart:
    [requests.exceptions.RequestException] and its subclasses, and every
    other subclass of [Exception]. The argument is [str(e)]. *)
Inductive exn : Type :=
| RequestException (msg : string)
| OtherException (msg : string).

Inductive py_result (A : Type) : Type :=
| Returned (a : A)
| Raised (e : exn).
Arguments Returned {A} a.
Arguments Raised {A} e.

#[global] Instance py_result_ret : MRet py_result := fun A a => Returned a.
#[global] Instance py_result_bind : MBind py_result := fun A B f m =>
  match m with
  | Returned a => f a
  | Raised e => Raised e
  end.

Definition attribute_error {A} (v : pyval) (attr : string) : py_result A :=
  Raised (OtherException
    ("'" +:+ type_name v +:+ "' object has no attribute '" +:+ attr +:+ "'")).

Definition not_iterable {A} (v : pyval) : py_result A :=
  Raised (OtherException ("'" +:+ type_name v +:+ "' object is not iterable")).

(** [v.get(k, default)] *)
Definition py_get (v : pyval) (k : string) (dflt : pyval) : py_result pyval :=
  match v with
  | VDict d => Returned (default dflt (PyDict.get k d))
  | _ => attribute_error v "get"
  end.

(** [flatten_dict(v, parent_key=parent_key)], whose first statement after
    [items = []] is [v.items()]. *)
Definition py_flatten_dict (v : pyval) (parent_key : string)
  : py_result (pydict pyval) :=
  match v with
  | VDict d => Returned (flatten_dict d parent_key "_")
  | _ => attribute_error v "items"
  end.

Fixpoint str_chars (s : string) : list pyval :=
  match s with
  | EmptyString => []
  | String c s' => VStr (String c EmptyString) :: str_chars s'
  end.

(** The elements that [for x in v] goes through. *)
Definition py_iter (v : pyval) : py_result (list pyval) :=
  match v with
  | VList xs => Returned xs
  | VStr s => Returned (str_chars s)
  | VDict d => Returned (VStr <$> PyDict.keys d)
  | _ => not_iterable v
  end.

(** [needle in v] for a string [needle]. *)
Definition py_in (needle : string) (v : pyval) : py_result bool :=
  match v with
  | VStr s => Returned (contains needle s)
  | VList xs =>
      Returned (existsb (fun x => match x with
                                  | VStr s => bool_decide (s = needle)
                                  | _ => false
                                  end) xs)
  | VDict d => Returned (PyDict.mem needle d)
  | _ => Raised (OtherException
           ("argument of type '" +:+ type_name v +:+ "' is not iterable"))
  end.

(** ** Configuration *)

Definition PROBE_SIZE_MB : Z := 5.
Definition DEEP_SCAN_SIZE_MB : Z := 100.
Definition SAVE_BATCH_SIZE : nat := 50.
Definition OUTPUT_CSV : string := "epstein_full_metadata.csv".

(** ** The outside world *)

Abbreviation bytes := (list Byte.byte).

(** A [requests.Response]: reading [content] pulls the body over the
    connection and can itself raise. *)
Record http_response : Type := {
  status_code : Z;
  reason : string;
  response_url : string;
  content : py_result bytes;
}.

(** A [subprocess.CompletedProcess]. *)
Record completed_process : Type := {
  returncode : Z;
  stdout : bytes;
  stderr : bytes;
}.

(** The effects of a validation task, in the order they happen. *)
Inductive event : Type :=
| EvGet (url : string) (range : string) (timeout : Z)
| EvRun (command : list string) (input : bytes) (timeout : Z).

(** What the program does not decide: the answers of the remote host and of
    the probe binary (which may depend on everything that happened before),
    and the library functions whose results the embedding takes as given. *)
Record runtime : Type := {
  session_get : list event -> string -> string -> Z -> py_result http_response;
  subprocess_run : list event -> list string -> bytes -> Z
                   -> py_result completed_process;
  (** [json.loads] *)
  json_loads : bytes -> py_result pyval;
  (** [bytes.decode] *)
  bytes_decode : bytes -> py_result string;
  (** [str] of a float, a list or a dictionary *)
  py_repr : pyval -> string;
}.

(** Computations that perform effects and may raise. *)
Definition io (A : Type) : Type := list event -> py_result A * list event.

#[global] Instance io_ret : MRet io := fun A a tr => (Returned a, tr).
#[global] Instance io_bind : MBind io := fun A B f m tr =>
  match m tr with
  | (Returned a, tr') => f a tr'
  | (Raised e, tr') => (Raised e, tr')
  end.

Definition lift {A} (r : py_result A) : io A := fun tr => (r, tr).

(** [try: body except Exception as e: handler(e)] *)
Definition try_except {A} (body : io A) (handler : exn -> io A) : io A :=
  fun tr =>
    match body tr with
    | (Returned a, tr') => (Returned a, tr')
    | (Raised e, tr') => handler e tr'
    end.

Section Engine.
Variable rt : runtime.

(** [str(v)], as an f-string formats [v]. *)
Definition py_str (v : pyval) : string :=
  match v with
  | VNone => "None"
  | VBool true => "True"
  | VBool false => "False"
  | VInt n => pretty n
  | VStr s => s
  | _ => py_repr rt v
  end.

(** [session.get(url, headers={'Range': range}, stream=True, timeout=timeout)] *)
Definition session_get_call (url range : string) (timeout : Z)
  : io http_response :=
  fun tr => (session_get rt tr url range timeout,
             tr ++ [EvGet url range timeout]).

(** [subprocess.run(command, input=input, capture_output=True,
    timeout=timeout)] *)
Definition subprocess_run_call (command : list string) (input : bytes)
    (timeout : Z) : io completed_process :=
  fun tr => (subprocess_run rt tr command input timeout,
             tr ++ [EvRun command input timeout]).

(** [response.raise_for_status()] *)
Definition raise_for_status (r : http_response) : py_result unit :=
  if bool_decide (400 <= status_code r < 500) then
    Raised (RequestException
      (pretty (status_code r) +:+ " Client Error: " +:+ reason r
       +:+ " for url: " +:+ response_url r))
  else if bool_decide (500 <= status_code r < 600) then
    Raised (RequestException
      (pretty (status_code r) +:+ " Server Error: " +:+ reason r
       +:+ " for url: " +:+ response_url r))
  else Returned ().

(** [f'stream_{i}_{codec_type}'] *)
Definition stream_parent_key (i : nat) (codec_type : pyval) : string :=
  "stream_" +:+ pretty i +:+ "_" +:+ py_str codec_type.

(** The loop over [enumerate(data.get('streams', []))], from index [i]. *)
Fixpoint add_streams (i : nat) (streams : list pyval)
    (metadata : pydict pyval) : py_result (pydict pyval) :=
  match streams with
  | [] => Returned metadata
  | stream :: rest =>
      codec_type ← py_get stream "codec_type" (VStr "unknown");
      flat ← py_flatten_dict stream (stream_parent_key i codec_type);
      add_streams (S i) rest (PyDict.update metadata flat)
  end.

(** Lines 115 to 126: the record of a probe report [data] with streams.
    [data] is a dictionary there, or [data.get] would have raised. *)
Definition build_metadata (partial : bool) (data : pydict pyval)
  : py_result (pydict pyval) :=
  let metadata :=
    [("is_valid", VBool true);
     ("validation_method", VStr (if partial then "partial" else "full"))] in
  metadata ←
    match PyDict.get "format" data with
    | Some fmt =>
        flat ← py_flatten_dict fmt "format";
        size ← py_get fmt "size" VNone;
        Returned (PyDict.set "file_size_bytes" size
                    (PyDict.update metadata flat))
    | None => Returned metadata
    end;
  streams ← py_iter (default (VList []) (PyDict.get "streams" data));
  add_streams 0 streams metadata.

(** The body of the [try] statement of [run_ffprobe]. *)
Definition run_ffprobe_try (url : string) (partial : bool)
  : io (pydict pyval) :=
  content_to_probe ←
    (if partial then
       response ← session_get_call url
         ("bytes=0-" +:+ pretty (PROBE_SIZE_MB * 1024 * 1024)) 45;
       _ ← lift (raise_for_status response);
       lift (content response)
     else
       response ← session_get_call url
         ("bytes=0-" +:+ pretty (DEEP_SCAN_SIZE_MB * 1024 * 1024)) 120;
       _ ← lift (raise_for_status response);
       lift (content response));
  let command_input := content_to_probe in
  let ffprobe_target := "-" in
  if partial && bool_decide (content_to_probe = []) then
    mret [("is_valid", VBool false); ("error", VStr "empty_response_body")]
  else
    let command :=
      ["ffprobe"; "-v"; "quiet"; "-print_format"; "json";
       "-show_streams"; "-show_format"; ffprobe_target] in
    result ← subprocess_run_call command command_input 60;
    if negb (returncode result =? 0) then
      text ← lift (bytes_decode rt (stderr result));
      mret [("is_valid", VBool false);
            ("error", VStr ("ffprobe_error: " +:+ str_take 200 text))]
    else
      data ← lift (json_loads rt (stdout result));
      match data with
      | VDict d =>
          if negb (truthy (default VNone (PyDict.get "streams" d))) then
            mret [("is_valid", VBool false);
                  ("error", VStr "no_media_streams")]
          else lift (build_metadata partial d)
      | _ => lift (attribute_error data "get")
      end.

Definition run_ffprobe (url : string) (partial : bool) : io (pydict pyval) :=
  try_except (run_ffprobe_try url partial)
    (fun e =>
       match e with
       | RequestException msg =>
           mret [("is_valid", VBool false);
                 ("error", VStr ("http_error: " +:+ msg))]
       | OtherException msg =>
           mret [("is_valid", VBool false);
                 ("error", VStr ("general_error: " +:+ msg));
                 ("url", VStr url)]
       end).

(** Orchestrates the validation based on the chosen scan mode. (What the
    program prints is left out of the trace.) *)
Definition validate_url_entry (url : string) (scan_mode : string)
  : io (pydict pyval) :=
  if contains "no_media_yet" url || contains "tiny_file" url then
    mret [("is_valid", VBool false);
          ("error", VStr "skipped_unsolved_or_tiny")]
  else if bool_decide (scan_mode = "fast") then run_ffprobe url true
  else if bool_decide (scan_mode = "full") then run_ffprobe url false
  else if bool_decide (scan_mode = "two-pass") then
    fast_result ← run_ffprobe url true;
    if truthy (default VNone (PyDict.get "is_valid" fast_result)) then
      mret fast_result
    else
      escalate ← lift (py_in "no_media_streams"
                         (default (VStr "") (PyDict.get "error" fast_result)));
      if escalate : bool then run_ffprobe url false else mret fast_result
  else
    mret [("is_valid", VBool false); ("error", VStr "invalid_scan_mode")].
End Engine.

(** ** The tables on disk *)

(** A CSV file as the [csv] module sees it: the header row and the rows of
    cells after it. *)
Record csv_table : Type := {
  fieldnames : list string;
  table_rows : list (list string);
}.

(** Modelled from the spec: the columns of the input table, whose writer
    (the upstream discovery program) is not part of these sources. A row
    has [original_url], [actual_url] and [media_type], each a string. *)
Record SourceEntry : Type := {
  original_url : string;
  actual_url : string;
  media_type : string;
}.

(** The row as the dictionary that [csv.DictReader] hands to [main]. *)
Definition row_dict (row : SourceEntry) : pydict pyval :=
  [("original_url", VStr (original_url row));
   ("actual_url", VStr (actual_url row));
   ("media_type", VStr (media_type row))].

(** Lines 222 to 228: the rows that [main] keeps from the input table. *)
Definition read_source_rows (rows : list SourceEntry) : list SourceEntry :=
  filter (fun row => media_type row ∉
                       ["no_media_yet"; "pdf_or_not_found"; "tiny_file"]) rows.

(** The rows that [csv.DictReader] yields: blank rows are skipped, a short
    row is filled up with [None]. (The cells of a row longer than the header
    go under the key [None], which is no column: they are left out.) *)
Definition dict_reader (t : csv_table) : list (pydict pyval) :=
  (fun cells =>
     PyDict.of_items
       (zip (fieldnames t) (VStr <$> cells)
        ++ ((fun h => (h, VNone)) <$> drop (length cells) (fieldnames t))))
  <$> filter (fun cells => cells ≠ []) (table_rows t).

(** The keys of [processed_urls]: the [actual_url] cell of a row, which is a
    string, or [None] for a reloaded row that was too short to have one. *)
Abbreviation store := (list (option string * pydict pyval)).

Definition preferred_order : list string :=
  ["original_url"; "actual_url"; "media_type"; "is_valid";
   "validation_method"; "file_size_bytes"; "error"].

(** [preferred_order.index(h) if h in preferred_order else len(preferred_order)] *)
Definition header_rank (h : string) : nat :=
  match list_find (fun h' => h' = h) preferred_order with
  | Some (i, _) => i
  | None => length preferred_order
  end.

(** The order of the sort keys [(rank, h)]. *)
Definition header_le (h1 h2 : string) : Prop :=
  (header_rank h1 < header_rank h2)%nat
  ∨ (header_rank h1 = header_rank h2 ∧ String.leb h1 h2 = true).

#[global] Instance header_le_dec h1 h2 : Decision (header_le h1 h2).
Proof. unfold header_le. apply _. Defined.

Section Persistence.
Variable rt : runtime.

(** The text that [csv.writer] puts in a cell. *)
Definition csv_cell (v : pyval) : string :=
  match v with
  | VNone => ""
  | _ => py_str rt v
  end.

Definition sorted_headers (results : list (pydict pyval)) : list string :=
  let all_headers := remove_dups (mjoin (PyDict.keys <$> results)) in
  merge_sort header_le all_headers.

(** What [writer.writeheader()] and [writer.writerows(results)] put in
    the file: a key that a record lacks gives an empty cell. *)
Definition results_table (results : list (pydict pyval)) : csv_table :=
  let sorted_headers := sorted_headers results in
  {| fieldnames := sorted_headers;
     table_rows :=
       (fun res =>
          (fun h => csv_cell (default (VStr "") (PyDict.get h res)))
          <$> sorted_headers) <$> results |}.

(** The files are a dictionary from paths to tables. A call with no
    results returns before the file is opened. *)
Definition save_results_to_csv (results : list (pydict pyval))
    (file_path : string) (files : pydict csv_table) : pydict csv_table :=
  if bool_decide (results = []) then files
  else PyDict.set file_path (results_table results) files.

(** Lines 188 and 189: [row['is_valid'] = (row['is_valid'] == 'True')]
    when the row has the key. *)
Definition parse_is_valid (row : pydict pyval) : pydict pyval :=
  match PyDict.get "is_valid" row with
  | Some v =>
      PyDict.set "is_valid"
        (VBool (match v with
                | VStr s => bool_decide (s = "True")
                | _ => false
                end)) row
  | None => row
  end.

(** Lines 187 to 190: one turn of the loop that reloads the output. A
    header without [actual_url] gives a [KeyError]. *)
Definition load_row (processed_urls : store) (row : pydict pyval)
  : py_result store :=
  let row := parse_is_valid row in
  match PyDict.get "actual_url" row with
  | Some (VStr url) => Returned (PyDict.set (Some url) row processed_urls)
  | Some _ => Returned (PyDict.set None row processed_urls)
  | None => Raised (OtherException "'actual_url'")
  end.

(** Lines 182 to 190: [processed_urls] at the start of a run. *)
Definition load_processed_urls (files : pydict csv_table)
  : py_result store :=
  match PyDict.get OUTPUT_CSV files with
  | Some t =>
      foldl (fun acc row => processed_urls ← acc; load_row processed_urls row)
            (Returned []) (dict_reader t)
  | None => Returned []
  end.

(** Lines 238 to 242: the queue of an iteration. *)
Definition rows_to_validate (source_rows : list SourceEntry)
    (processed_urls : store) : list SourceEntry :=
  filter (fun row => PyDict.mem (Some (actual_url row)) processed_urls = false)
         source_rows.

(** The state that the scan pass of [main] works on. [save_calls] lists
    the argument of every call of [save_results_to_csv], oldest first. *)
Record main_state : Type := {
  processed_urls : store;
  files : pydict csv_table;
  save_calls : list (list (pydict pyval));
}.

(** [save_results_to_csv(list(processed_urls.values()), OUTPUT_CSV)] *)
Definition save_progress (st : main_state) : main_state :=
  let results := PyDict.values (processed_urls st) in
  {| processed_urls := processed_urls st;
     files := save_results_to_csv results OUTPUT_CSV (files st);
     save_calls := save_calls st ++ [results] |}.

(** [{**original_row, **metadata}] *)
Definition full_row_data (original_row : SourceEntry)
    (metadata : pydict pyval) : pydict pyval :=
  PyDict.update (row_dict original_row) metadata.

(** Lines 289 to 300: the body of the harvest loop at index [i], for the
    completed task of [original_row] whose result is [metadata]. *)
Definition harvest_one (st : main_state) (i : nat)
    (completed : SourceEntry * pydict pyval) : main_state :=
  let original_row := completed.1 in
  let url := actual_url original_row in
  let metadata := completed.2 in
  let full_row_data := full_row_data original_row metadata in
  let st :=
    {| processed_urls :=
         PyDict.set (Some url) full_row_data (processed_urls st);
       files := files st;
       save_calls := save_calls st |} in
  if bool_decide (((i + 1) `mod` SAVE_BATCH_SIZE)%nat = 0%nat)
  then save_progress st else st.

(** The harvest loop over the tasks in the order they complete. *)
Fixpoint harvest (i : nat) (completions : list (SourceEntry * pydict pyval))
    (st : main_state) : main_state :=
  match completions with
  | [] => st
  | completed :: rest => harvest (S i) rest (harvest_one st i completed)
  end.

(** Lines 284 to 303: the harvest loop, then the final save. *)
Definition scan_pass (completions : list (SourceEntry * pydict pyval))
    (st : main_state) : main_state :=
  save_progress (harvest 0 completions st).
End Persistence.

(** ** The queue of an iteration *)

(** [r.get('is_valid')] as a condition. *)
Definition record_is_valid (r : pydict pyval) : bool :=
  truthy (default VNone (PyDict.get "is_valid" r)).

(** [sum(1 for r in processed_urls.values() if not r.get('is_valid'))] *)
Definition invalid_count (processed_urls : store) : nat :=
  length (filter (fun r => record_is_valid r = false)
                 (PyDict.values processed_urls)).

(** Lines 259 to 262: the source rows whose URL is in the store with a
    record that is not valid. *)
Definition rows_to_rescan (source_rows : list SourceEntry)
    (processed_urls : store) : list SourceEntry :=
  filter (fun row =>
            match PyDict.get (Some (actual_url row)) processed_urls with
            | Some r => negb (record_is_valid r)
            | None => false
            end = true)
         source_rows.

(** Lines 237 to 266: the queue of an iteration, or [None] when the loop is
    left. [rescan] is what the operator answers when asked whether to scan
    the invalid files again ([None] when the prompt is cancelled); the
    question is put only when nothing is pending and some record is not
    valid. *)
Definition build_queue (source_rows : list SourceEntry)
    (processed_urls : store) (rescan : option bool)
  : option (list SourceEntry) :=
  let rows := rows_to_validate source_rows processed_urls in
  if bool_decide (rows = []) then
    if bool_decide (invalid_count processed_urls = 0%nat) then None
    else if negb (default false rescan) then None
    else
      let rows := rows_to_rescan source_rows processed_urls in
      if bool_decide (rows = []) then None else Some rows
  else Some rows.

(** * The vocabulary of the properties *)

(** ** Induction on values *)

Section pyval_ind.
Variable P : pyval → Prop.
Hypothesis HNone : P VNone.
Hypothesis HBool : ∀ b, P (VBool b).
Hypothesis HInt : ∀ n, P (VInt n).
Hypothesis HFloat : ∀ x, P (VFloat x).
Hypothesis HStr : ∀ s, P (VStr s).
Hypothesis HList : ∀ xs, Forall P xs → P (VList xs).
Hypothesis HDict : ∀ d, Forall (fun kv => P kv.2) d → P (VDict d).

Fixpoint pyval_ind (v : pyval) : P v :=
  match v with
  | VNone => HNone
  | VBool b => HBool b
  | VInt n => HInt n
  | VFloat x => HFloat x
  | VStr s => HStr s
  | VList xs =>
      HList xs
        ((fix go (xs : list pyval) : Forall P xs :=
            match xs with
            | [] => @List.Forall_nil _ P
            | x :: xs' => @List.Forall_cons _ P x xs' (pyval_ind x) (go xs')
            end) xs)
  | VDict d =>
      HDict d
        ((fix go (d : list (string * pyval)) : Forall (fun kv => P kv.2) d :=
            match d with
            | [] => @List.Forall_nil _ _
            | kv :: d' =>
                @List.Forall_cons _ (fun kv => P kv.2) kv d'
                  (pyval_ind kv.2) (go d')
            end) d)
  end.
End pyval_ind.

(** ** Outcomes *)

(** The error texts that a validation task can report. *)
Inductive error_code : string → Prop :=
| code_http msg : error_code ("http_error: " +:+ msg)
| code_empty_body : error_code "empty_response_body"
| code_ffprobe msg : error_code ("ffprobe_error: " +:+ msg)
| code_general msg : error_code ("general_error: " +:+ msg)
| code_no_media_streams : error_code "no_media_streams"
| code_skipped : error_code "skipped_unsolved_or_tiny"
| code_invalid_mode : error_code "invalid_scan_mode".

(** The outcome of a failed attempt: [is_valid] is false and [error] holds
    one of the error texts; the only other key it can have is [url]. *)
Definition is_failure (o : pydict pyval) : Prop :=
  ∃ msg rest,
    o = ("is_valid", VBool false) :: ("error", VStr msg) :: rest
    ∧ error_code msg
    ∧ (rest = [] ∨ ∃ url, rest = [("url", VStr url)]).

(** The record after the [format] object has been merged in. *)
Definition with_format (partial : bool) (data : pydict pyval)
  : py_result (pydict pyval) :=
  let metadata :=
    [("is_valid", VBool true);
     ("validation_method", VStr (if partial then "partial" else "full"))] in
  match PyDict.get "format" data with
  | Some fmt =>
      flat ← py_flatten_dict fmt "format";
      size ← py_get fmt "size" VNone;
      Returned (PyDict.set "file_size_bytes" size
                  (PyDict.update metadata flat))
  | None => Returned metadata
  end.

(** ** Leaves and their keys *)

(** A value has a leaf when flattening it yields an entry: it is not a
    dictionary, or it is a dictionary that has a value with a leaf. *)
Fixpoint has_leaf (v : pyval) : bool :=
  match v with
  | VDict d =>
      (fix any (d : list (string * pyval)) : bool :=
         match d with
         | [] => false
         | (_, v') :: d' => has_leaf v' || any d'
         end) d
  | _ => true
  end.

(** ** Stores *)

(** The store after the results of [completions] have been merged in. *)
Definition merged (processed_urls : store)
    (completions : list (SourceEntry * pydict pyval)) : store :=
  foldl (fun acc completed =>
           PyDict.set (Some (actual_url completed.1))
             (full_row_data completed.1 completed.2) acc)
        processed_urls completions.



(** The leaves of a value, each with the path of keys that leads to it: a
    value that is not a dictionary is a leaf (lists are leaves too), and an
    empty dictionary has none. *)
Fixpoint leaves (v : pyval) : list (list string * pyval) :=
  match v with
  | VDict d =>
      (fix go (d : list (string * pyval)) : list (list string * pyval) :=
         match d with
         | [] => []
         | (k, v') :: d' =>
             ((fun leaf => (k :: leaf.1, leaf.2)) <$> leaves v') ++ go d'
         end) d
  | _ => [([], v)]
  end.

(** The key of a path under a parent key: the keys joined by [sep]. *)
Definition path_key (parent_key sep : string) (path : list string) : string :=
  foldl (fun key k => new_key key sep k) parent_key path.

(** The leaves of [v] under their joined keys, in document order. *)
Definition joined (sep key : string) (v : pyval) : list (string * pyval) :=
  (fun leaf => (path_key key sep leaf.1, leaf.2)) <$> leaves v.

(** [len(s)]: the number of characters of [s]. *)
Fixpoint str_len (s : string) : nat :=
  match s with
  | EmptyString => 0
  | String c s' => (if is_continuation c then 0 else 1) + str_len s'
  end.

(** The decimal digits. *)
Definition is_digit (c : Ascii.ascii) : bool :=
  bool_decide (c ∈ ["0"; "1"; "2"; "3"; "4"; "5"; "6"; "7"; "8"; "9"]%char).

Fixpoint all_digits (s : string) : bool :=
  match s with
  | EmptyString => true
  | String c s' => is_digit c && all_digits s'
  end.

(** What the [format] object contributes to the record. *)
Definition format_items (data : pydict pyval) : list (string * pyval) :=
  match PyDict.get "format" data with
  | Some (VDict fmt) =>
      flatten_dict fmt "format" "_"
      ++ [("file_size_bytes", default VNone (PyDict.get "size" fmt))]
  | _ => []
  end.

Section Vocabulary.
Variable rt : runtime.

(** The probe binary exited with status 0 and printed the JSON object
    [data]. *)
Definition probed (data : pydict pyval) : Prop :=
  ∃ tr command input timeout result,
    subprocess_run rt tr command input timeout = Returned result
    ∧ returncode result = 0
    ∧ json_loads rt (stdout result) = Returned (VDict data).

(** The outcome of a successful attempt. *)
Definition is_success (partial : bool) (o : pydict pyval) : Prop :=
  ∃ data, probed data
    ∧ truthy (default VNone (PyDict.get "streams" data)) = true
    ∧ build_metadata rt partial data = Returned o.


(** The table holds the store [s]: its header is the sorted list of the
    keys of the records of [s], and it has one line for each URL of the
    store, in the order of the store, with the text of the field of the
    record under every column (the empty text where the record has no such
    field). *)
Definition holds_store (s : store) (t : csv_table) : Prop :=
  fieldnames t = sorted_headers (PyDict.values s)
  ∧ length (table_rows t) = length s
  ∧ ∀ i key r, s !! i = Some (key, r) →
      table_rows t !! i
      = Some ((fun h => csv_cell rt (default (VStr "") (PyDict.get h r)))
              <$> fieldnames t).

(** What the streams from position [i] on contribute to the record. *)
Fixpoint stream_items (i : nat) (streams : list pyval)
  : list (string * pyval) :=
  match streams with
  | VDict d :: rest =>
      flatten_dict d
        (stream_parent_key rt i
           (default (VStr "unknown") (PyDict.get "codec_type" d))) "_"
      ++ stream_items (S i) rest
  | _ => []
  end.
End Vocabulary.

(** ** Effects of a probe attempt *)

(** The command line of the probe. *)
Definition ffprobe_command : list string :=
  ["ffprobe"; "-v"; "quiet"; "-print_format"; "json";
   "-show_streams"; "-show_format"; "-"].

(** The [Range] header and the timeout of the request of an attempt. *)
Definition attempt_range (partial : bool) : string :=
  if partial then "bytes=0-5242880" else "bytes=0-104857600".
Definition attempt_timeout (partial : bool) : Z :=
  if partial then 45 else 120.

(** The events of one attempt on [url]: the request, then at most one run of
    the probe. *)
Definition attempt_events (url : string) (partial : bool)
    (events : list event) : Prop :=
  events = [EvGet url (attempt_range partial) (attempt_timeout partial)]
  ∨ ∃ input,
      events = [EvGet url (attempt_range partial) (attempt_timeout partial);
                EvRun ffprobe_command input 60].

(** The outcomes of a failed attempt. *)
Definition failure (msg : string) : pydict pyval :=
  [("is_valid", VBool false); ("error", VStr msg)].

(** ** Completed tasks *)

(** The key under which the result of a completed task is stored. *)
Abbreviation completion_key :=
  (fun completed : SourceEntry * pydict pyval =>
     Some (actual_url completed.1)).

(** ** Scripted worlds for the examples *)

Definition ok_response (url : string) (body : bytes) : http_response :=
  {| status_code := 200; reason := "OK"; response_url := url;
     content := Returned body |}.

(** A host that answers every request with [body] and a probe that exits
    with [code] after printing a report that parses to [report]. *)
Definition scripted (body : bytes) (code : Z) (report : pyval) : runtime :=
  {| session_get := fun _ url _ _ => Returned (ok_response url body);
     subprocess_run := fun _ _ _ _ =>
       Returned {| returncode := code; stdout := []; stderr := [] |};
     json_loads := fun _ => Returned report;
     bytes_decode := fun _ => Returned "";
     py_repr := fun _ => "" |}.

(** A host that answers every request with status 404. *)
Definition not_found : runtime :=
  {| session_get := fun _ url _ _ =>
       Returned {| status_code := 404; reason := "Not Found";
                   response_url := url; content := Returned [] |};
     subprocess_run := fun _ _ _ _ =>
       Returned {| returncode := 1; stdout := []; stderr := [] |};
     json_loads := fun _ => Returned VNone;
     bytes_decode := fun _ => Returned "";
     py_repr := fun _ => "" |}.

Definition sample_row : SourceEntry :=
  {| original_url := "https://host/page"; actual_url := "https://host/a.mp4";
     media_type := "video" |}.

(** A world whose probe exits with status 0 after printing text that
    [json.loads] rejects. *)
Definition garbled : runtime :=
  {| session_get := fun _ url _ _ =>
       Returned {| status_code := 200; reason := "OK";
                   response_url := url; content := Returned [Byte.x00] |};
     subprocess_run := fun _ _ _ _ =>
       Returned {| returncode := 0; stdout := [Byte.x7b]; stderr := [] |};
     json_loads := fun _ =>
       Raised (OtherException "Expecting property name: line 1 column 2");
     bytes_decode := fun _ => Returned "";
     py_repr := fun _ => "" |}.

Definition other_row : SourceEntry :=
  {| original_url := "https://host/page"; actual_url := "https://host/b.mp3";
     media_type := "audio" |}.

(** A store with a valid and an invalid record. *)
Definition sample_store : store :=
  merged []
    [(sample_row,
      [("is_valid", VBool true); ("validation_method", VStr "partial")]);
     (other_row, failure "no_media_streams")].

(** A text of [n] characters of two bytes each. *)
Definition accents (n : nat) : string := String.concat "" (replicate n "é").

(** A world whose probe exits with status 1 after printing [text] on its
    error output. *)
Definition failing_probe (text : string) : runtime :=
  {| session_get := fun _ url _ _ => Returned (ok_response url [Byte.x00]);
     subprocess_run := fun _ _ _ _ =>
       Returned {| returncode := 1; stdout := [];
                   stderr := String.list_byte_of_string text |};
     json_loads := fun _ => Returned VNone;
     bytes_decode := fun b => Returned (String.string_of_list_byte b);
     py_repr := fun _ => "" |}.

(** * Properties *)

(** ** Dictionaries *)

Module PyDictFacts.
Section Facts.
Context {K V : Type} `{EqDecision K}.
Implicit Types (k : K) (v : V) (d items : list (K * V)).

Lemma get_None k d : PyDict.get k d = None ↔ k ∉ PyDict.keys d.
Proof.
  unfold PyDict.keys. induction d as [|[k' v'] d IH]; simpl.
  - split; [intros _; apply not_elem_of_nil|done].
  - rewrite not_elem_of_cons. destruct (decide (k' = k)) as [->|Hne].
    + split; [done|]. by intros [? _].
    + rewrite IH. split; [by split|by intros [_ ?]].
Qed.

Lemma get_Some_elem k v d : PyDict.get k d = Some v → (k, v) ∈ d.
Proof.
  induction d as [|[k' v'] d IH]; simpl; [done|].
  case_decide; subst.
  - intros [= ->]. apply elem_of_cons; by left.
  - intros. apply elem_of_cons; right; auto.
Qed.

Lemma get_set_eq k v d : PyDict.get k (PyDict.set k v d) = Some v.
Proof.
  induction d as [|[k' v'] d IH]; simpl.
  - by rewrite decide_True.
  - case_decide; subst; simpl; [by rewrite decide_True|by rewrite decide_False].
Qed.

Lemma get_set_ne k k' v d :
  k ≠ k' → PyDict.get k' (PyDict.set k v d) = PyDict.get k' d.
Proof.
  intros Hne. induction d as [|[k0 v0] d IH]; simpl.
  - by rewrite decide_False.
  - destruct (decide (k0 = k)) as [->|]; simpl.
    + by rewrite !decide_False.
    + by rewrite IH.
Qed.

Lemma keys_set k v d :
  PyDict.keys (PyDict.set k v d)
  = if PyDict.mem k d then PyDict.keys d else PyDict.keys d ++ [k].
Proof.
  unfold PyDict.keys, PyDict.mem. induction d as [|[k' v'] d IH]; [done|].
  cbn [PyDict.set PyDict.get]. destruct (decide (k' = k)); [done|].
  rewrite !fmap_cons, IH. by destruct (PyDict.get k d).
Qed.

Lemma elem_of_keys_set k k' v d :
  k' ∈ PyDict.keys (PyDict.set k v d) ↔ k' = k ∨ k' ∈ PyDict.keys d.
Proof.
  rewrite keys_set. unfold PyDict.mem.
  destruct (PyDict.get k d) as [v'|] eqn:Hget.
  - split; [auto|]. intros [->|]; [|done].
    apply get_Some_elem in Hget. apply list_elem_of_fmap. by exists (k, v').
  - rewrite elem_of_app, list_elem_of_singleton. tauto.
Qed.

Lemma NoDup_keys_set k v d :
  NoDup (PyDict.keys d) → NoDup (PyDict.keys (PyDict.set k v d)).
Proof.
  intros Hnd. rewrite keys_set. unfold PyDict.mem.
  destruct (PyDict.get k d) eqn:Hget; [done|].
  apply get_None in Hget. apply NoDup_app. split_and!; [done| |apply NoDup_singleton].
  intros k' Hk' ->%list_elem_of_singleton. done.
Qed.

Lemma elem_of_keys_update k d items :
  k ∈ PyDict.keys (PyDict.update d items)
  ↔ k ∈ PyDict.keys d ∨ k ∈ items.*1.
Proof.
  unfold PyDict.update. revert d.
  induction items as [|[k' v'] items IH]; intros d; simpl.
  - rewrite elem_of_nil. tauto.
  - rewrite IH, elem_of_keys_set, elem_of_cons. tauto.
Qed.

Lemma NoDup_keys_update d items :
  NoDup (PyDict.keys d) → NoDup (PyDict.keys (PyDict.update d items)).
Proof.
  unfold PyDict.update. revert d.
  induction items as [|[k' v'] items IH]; intros d Hnd; simpl; [done|].
  by apply IH, NoDup_keys_set.
Qed.

Lemma get_update_notin k d items :
  k ∉ items.*1 → PyDict.get k (PyDict.update d items) = PyDict.get k d.
Proof.
  unfold PyDict.update. revert d.
  induction items as [|[k' v'] items IH]; intros d Hk; simpl; [done|].
  simpl in Hk. apply not_elem_of_cons in Hk as [Hne Hk].
  rewrite IH by done. by apply get_set_ne.
Qed.

Lemma elem_of_keys_of_items k items :
  k ∈ PyDict.keys (PyDict.of_items items) ↔ k ∈ items.*1.
Proof.
  unfold PyDict.of_items. rewrite elem_of_keys_update.
  unfold PyDict.keys. simpl. rewrite elem_of_nil. tauto.
Qed.

Lemma NoDup_keys_of_items items : NoDup (PyDict.keys (PyDict.of_items items)).
Proof. apply NoDup_keys_update. constructor. Qed.

Lemma set_not_nil k v d : PyDict.set k v d ≠ [].
Proof. destruct d as [|[k' v'] d]; simpl; [done|]. by case_decide. Qed.

Lemma of_items_nil items : PyDict.of_items items = [] ↔ items = [].
Proof.
  split; [|by intros ->].
  destruct items as [|[k v] items]; [done|]. intros Hnil. exfalso.
  assert (k ∈ PyDict.keys (PyDict.of_items ((k, v) :: items))) as Hk.
  { apply elem_of_keys_of_items. simpl. apply elem_of_cons. by left. }
  rewrite Hnil in Hk. by apply elem_of_nil in Hk.
Qed.

(** When the keys of [items] are distinct, [dict(items)] loses nothing. *)
Lemma update_fresh d items :
  NoDup (PyDict.keys d ++ items.*1) → PyDict.update d items = d ++ items.
Proof.
  unfold PyDict.update. revert d.
  induction items as [|[k v] items IH]; intros d Hnd; simpl.
  - by rewrite app_nil_r.
  - assert (PyDict.set k v d = d ++ [(k, v)]) as ->.
    { simpl in Hnd. apply NoDup_app in Hnd as (_ & Hd & _).
      specialize (Hd k). clear -Hd.
      induction d as [|[k' v'] d IHd]; simpl; [done|].
      rewrite decide_False.
      - f_equal. apply IHd. intros Hin Hk. apply (Hd ltac:(simpl; apply elem_of_cons; by right) Hk).
      - intros ->. apply Hd; simpl; apply elem_of_cons; by left. }
    rewrite IH; [by rewrite <-app_assoc|].
    unfold PyDict.keys in *. rewrite fmap_app. simpl in *.
    by rewrite <-app_assoc.
Qed.

Lemma of_items_NoDup items : NoDup items.*1 → PyDict.of_items items = items.
Proof. intros. unfold PyDict.of_items. by rewrite update_fresh. Qed.

Lemma get_update_in k v d items :
  NoDup items.*1 → PyDict.get k items = Some v →
  PyDict.get k (PyDict.update d items) = Some v.
Proof.
  revert d. induction items as [|[k0 v0] items IH]; intros d Hnd Hget; [done|].
  simpl in Hnd, Hget. apply NoDup_cons in Hnd as [Hk0 Hnd].
  change (PyDict.get k (PyDict.update (PyDict.set k0 v0 d) items) = Some v).
  destruct (decide (k0 = k)) as [->|Hne].
  - injection Hget as ->. rewrite get_update_notin by done. apply get_set_eq.
  - by apply IH.
Qed.
End Facts.
End PyDictFacts.

(** ** Strings *)

Lemma str_app_assoc (s1 s2 s3 : string) :
  (s1 +:+ s2) +:+ s3 = s1 +:+ (s2 +:+ s3).
Proof.
  induction s1 as [|c s1 IH]; [done|].
  change (String c ((s1 +:+ s2) +:+ s3) = String c (s1 +:+ (s2 +:+ s3))).
  by rewrite IH.
Qed.

Lemma str_app_nil_r (s : string) : s +:+ "" = s.
Proof.
  induction s as [|c s IH]; [done|].
  change (String c (s +:+ "") = String c s). by rewrite IH.
Qed.

Lemma str_app_cons (c : Ascii.ascii) (s1 s2 : string) :
  String c s1 +:+ s2 = String c (s1 +:+ s2).
Proof. done. Qed.

Lemma str_app_eq_nil (s1 s2 : string) : s1 +:+ s2 = "" → s1 = "".
Proof. by destruct s1. Qed.

Lemma prefix_app (p r : string) : String.prefix p (p +:+ r) = true.
Proof.
  induction p as [|c p IH]; [by destruct r|].
  rewrite str_app_cons. simpl.
  destruct (Ascii.ascii_dec c c); [done|congruence].
Qed.

(** ** Flattening *)

Lemma flatten_entry_dict sep key d :
  flatten_entry sep key (VDict d) = flatten_dict d key sep.
Proof.
  unfold flatten_dict, flatten_items. simpl. f_equal.
  induction d as [|[k v] d IH]; simpl; [done|]. by rewrite IH.
Qed.

Example flatten_dict_nested :
  flatten_dict [("a", VInt 1); ("t", VDict [("x", VStr "u"); ("y", VDict [])])]
               "format" "_"
  = [("format_a", VInt 1); ("format_t_x", VStr "u")].
Proof. reflexivity. Qed.

Lemma new_key_nonempty parent_key sep k :
  parent_key ≠ "" → new_key parent_key sep k = parent_key +:+ sep +:+ k.
Proof. intros. unfold new_key. by rewrite decide_False. Qed.

Lemma elem_of_flatten_items k d parent_key sep :
  k ∈ (flatten_items d parent_key sep).*1
  ↔ ∃ k' v', (k', v') ∈ d
      ∧ k ∈ (flatten_entry sep (new_key parent_key sep k') v').*1.
Proof.
  unfold flatten_items. rewrite list_elem_of_fmap. split.
  - intros ([k0 v0] & -> & Hin). apply list_elem_of_In, in_flat_map in Hin.
    destruct Hin as ([k' v'] & Hd & Hin). exists k', v'. split.
    + by apply list_elem_of_In.
    + apply list_elem_of_fmap. exists (k0, v0). split; [done|].
      by apply list_elem_of_In.
  - intros (k' & v' & Hd & Hin). apply list_elem_of_fmap in Hin.
    destruct Hin as ([k0 v0] & -> & Hin). exists (k0, v0). split; [done|].
    apply list_elem_of_In, in_flat_map. exists (k', v'). split.
    + by apply list_elem_of_In.
    + by apply list_elem_of_In.
Qed.

(** Every key that flattening under a parent key produces extends the
    parent key. *)
Lemma flatten_entry_keys sep v : ∀ key k,
  key ≠ "" → k ∈ (flatten_entry sep key v).*1 → ∃ r, k = key +:+ r.
Proof.
  induction v as [| | | | | |d IH] using pyval_ind; intros key k Hkey;
    try (simpl; intros ->%list_elem_of_singleton; exists "";
         by rewrite str_app_nil_r).
  rewrite flatten_entry_dict. unfold flatten_dict.
  intros Hin. apply (proj1 (PyDictFacts.elem_of_keys_of_items _ _)) in Hin.
  apply elem_of_flatten_items in Hin as (k' & v' & Hd & Hin).
  rewrite Forall_forall in IH. specialize (IH (k', v') Hd). simpl in IH.
  rewrite new_key_nonempty in Hin by done.
  apply IH in Hin as [r ->].
  - exists (sep +:+ k' +:+ r). by rewrite !str_app_assoc.
  - by intros ?%str_app_eq_nil.
Qed.

Lemma flatten_dict_keys d parent_key sep k :
  parent_key ≠ "" →
  k ∈ PyDict.keys (flatten_dict d parent_key sep) →
  ∃ r, k = parent_key +:+ sep +:+ r.
Proof.
  intros Hpk Hin. unfold flatten_dict in Hin.
  apply (proj1 (PyDictFacts.elem_of_keys_of_items _ _)) in Hin.
  apply elem_of_flatten_items in Hin as (k' & v' & Hd & Hin).
  rewrite new_key_nonempty in Hin by done.
  apply flatten_entry_keys in Hin as [r ->].
  - exists (k' +:+ r). by rewrite !str_app_assoc.
  - by intros ?%str_app_eq_nil.
Qed.

Lemma has_leaf_dict d :
  has_leaf (VDict d) = existsb (fun kv => has_leaf kv.2) d.
Proof. simpl. induction d as [|[k v] d IH]; simpl; [done|]. by rewrite IH. Qed.

Lemma flatten_entry_nil sep v : ∀ key,
  flatten_entry sep key v = [] ↔ has_leaf v = false.
Proof.
  induction v as [| | | | | |d IH] using pyval_ind; intros key; try done.
  rewrite flatten_entry_dict, has_leaf_dict. unfold flatten_dict, flatten_items.
  rewrite PyDictFacts.of_items_nil.
  induction d as [|[k v] d IHd]; simpl; [done|].
  apply Forall_cons in IH as [Hv Hd]. simpl in Hv.
  rewrite orb_false_iff, <-(IHd Hd), <-(Hv (new_key key sep k)).
  split; [by intros ?%app_eq_nil|intros [-> ->]; done].
Qed.

Lemma flatten_dict_nil d parent_key sep :
  flatten_dict d parent_key sep = [] ↔ has_leaf (VDict d) = false.
Proof. by rewrite <-flatten_entry_dict, flatten_entry_nil. Qed.

(** ** Computations *)

Lemma io_bind_Returned {A B} (m : io A) (f : A → io B) tr b tr' :
  (m ≫= f) tr = (Returned b, tr')
  ↔ ∃ a tr0, m tr = (Returned a, tr0) ∧ f a tr0 = (Returned b, tr').
Proof.
  unfold mbind, io_bind. split.
  - destruct (m tr) as [[a|e] tr0]; [eauto|done].
  - intros (a & tr0 & -> & Hf). done.
Qed.

Lemma io_ret_Returned {A} (a b : A) tr tr' :
  mret (M := io) a tr = (Returned b, tr') ↔ a = b ∧ tr = tr'.
Proof. unfold mret, io_ret. split; [by intros [= -> ->]|by intros [-> ->]]. Qed.

Lemma lift_Returned {A} (r : py_result A) b tr tr' :
  lift r tr = (Returned b, tr') ↔ r = Returned b ∧ tr = tr'.
Proof. unfold lift. split; [by intros [= -> ->]|by intros [-> ->]]. Qed.

Lemma py_bind_Returned {A B} (m : py_result A) (f : A → py_result B) b :
  m ≫= f = Returned b ↔ ∃ a, m = Returned a ∧ f a = Returned b.
Proof.
  unfold mbind, py_result_bind. split.
  - destruct m as [a|e]; [eauto|done].
  - by intros (a & -> & Hf).
Qed.

(** Takes apart a hypothesis that says that a computation returned. *)
Ltac returned H :=
  repeat match type of H with
  | (_ ≫= _) _ = (Returned _, _) =>
      let a := fresh "a" in let tr := fresh "tr" in let H1 := fresh H in
      apply io_bind_Returned in H as (a & tr & H1 & H)
  | mret _ _ = (Returned _, _) =>
      let E := fresh "E" in
      apply io_ret_Returned in H as [E H]
  | lift _ _ = (Returned _, _) =>
      let E := fresh "E" in
      apply lift_Returned in H as [E H]
  | _ ≫= _ = Returned _ =>
      let a := fresh "a" in let H1 := fresh H in
      apply py_bind_Returned in H as (a & H1 & H)
  end.

(** ** The probe attempt *)

Lemma error_code_nonempty msg : error_code msg → msg ≠ "".
Proof. by intros []. Qed.

Lemma failure_intro msg :
  error_code msg → is_failure [("is_valid", VBool false); ("error", VStr msg)].
Proof. intros. exists msg, []. auto. Qed.

Section EngineFacts.
Variable rt : runtime.

Lemma run_ffprobe_try_outcome url partial tr o tr' :
  run_ffprobe_try rt url partial tr = (Returned o, tr') →
  is_failure o ∨ is_success rt partial o.
Proof.
  unfold run_ffprobe_try. intros H.
  apply io_bind_Returned in H as (c & tr0 & _ & H).
  destruct (partial && bool_decide (c = [])).
  { returned H. subst. left. apply failure_intro. constructor. }
  apply io_bind_Returned in H as (result & tr1 & Hrun & H).
  injection Hrun as Hrun _.
  destruct (returncode result =? 0) eqn:Hcode; simpl in H.
  - apply io_bind_Returned in H as (data & tr2 & [Hdata _]%lift_Returned & H).
    destruct data as [| | | | | |d];
      try (apply lift_Returned in H as [[=] _]).
    destruct (truthy (default VNone (PyDict.get "streams" d))) eqn:Hstreams;
      simpl in H; returned H; subst.
    + right. exists d. split_and!; [|done..].
      exists tr0. do 3 eexists. exists result. split_and!; [done| |done].
      by apply Z.eqb_eq.
    + left. apply failure_intro. constructor.
  - returned H. subst. left. apply failure_intro. constructor.
Qed.

(** [run_ffprobe] catches everything that its body raises. *)
Lemma run_ffprobe_outcome url partial tr :
  ∃ o tr', run_ffprobe rt url partial tr = (Returned o, tr')
           ∧ (is_failure o ∨ is_success rt partial o).
Proof.
  unfold run_ffprobe, try_except.
  destruct (run_ffprobe_try rt url partial tr) as [[o|[msg|msg]] tr'] eqn:Htry.
  - exists o, tr'. split; [done|]. by eapply run_ffprobe_try_outcome.
  - eexists _, tr'. split; [done|]. left. apply failure_intro. constructor.
  - eexists _, tr'. split; [done|]. left.
    exists ("general_error: " +:+ msg), [("url", VStr url)].
    split_and!; [done|constructor|eauto].
Qed.
End EngineFacts.

(** ** The record of a successful probe *)

Section MetadataFacts.
Variable rt : runtime.

(** The keys that a stream contributes start with [stream_<i>_]. *)
Lemma stream_keys i ct d k :
  k ∈ PyDict.keys (flatten_dict d (stream_parent_key rt i ct) "_") →
  ∃ r, k = "stream_" +:+ pretty i +:+ "_" +:+ r.
Proof.
  intros [r ->]%flatten_dict_keys; [|done].
  exists (py_str rt ct +:+ "_" +:+ r). unfold stream_parent_key.
  by rewrite !str_app_assoc.
Qed.

Lemma format_keys d k :
  k ∈ PyDict.keys (flatten_dict d "format" "_") → ∃ r, k = "format_" +:+ r.
Proof. intros [r ->]%flatten_dict_keys; [|done]. by exists r. Qed.

Lemma add_streams_cons i stream rest m o :
  add_streams rt i (stream :: rest) m = Returned o →
  ∃ d, stream = VDict d
    ∧ add_streams rt (S i) rest
        (PyDict.update m
           (flatten_dict d
              (stream_parent_key rt i
                 (default (VStr "unknown") (PyDict.get "codec_type" d))) "_"))
      = Returned o.
Proof.
  simpl. intros H. destruct stream as [| | | | | |d]; try done.
  exists d. split; [done|]. exact H.
Qed.

(** What every turn of the stream loop preserves holds at its end. *)
Lemma add_streams_preserves (P : pydict pyval → Prop) :
  (∀ m i ct d, P m →
     P (PyDict.update m (flatten_dict d (stream_parent_key rt i ct) "_"))) →
  ∀ streams i m o, add_streams rt i streams m = Returned o → P m → P o.
Proof.
  intros Hstep streams.
  induction streams as [|stream rest IH]; intros i m o H Hm.
  - by injection H as <-.
  - apply add_streams_cons in H as (d & -> & H). eapply IH; eauto.
Qed.

Lemma add_streams_keys_mono streams i m o k :
  add_streams rt i streams m = Returned o →
  k ∈ PyDict.keys m → k ∈ PyDict.keys o.
Proof.
  intros H. revert streams i m o H.
  apply (add_streams_preserves (fun m => k ∈ PyDict.keys m)).
  intros m i ct d Hm. apply PyDictFacts.elem_of_keys_update. by left.
Qed.

(** A key that does not start with [stream_] is left alone by the loop. *)
Lemma add_streams_get streams i m o k :
  (∀ r, k ≠ "stream_" +:+ r) →
  add_streams rt i streams m = Returned o →
  PyDict.get k o = PyDict.get k m.
Proof.
  intros Hk H.
  eapply (add_streams_preserves (fun m' => PyDict.get k m' = PyDict.get k m));
    [|exact H|done].
  intros m' j ct d <-. apply PyDictFacts.get_update_notin.
  intros [r ->]%stream_keys. by eapply Hk.
Qed.

Lemma add_streams_NoDup streams i m o :
  add_streams rt i streams m = Returned o →
  NoDup (PyDict.keys m) → NoDup (PyDict.keys o).
Proof.
  revert streams i m o.
  apply (add_streams_preserves (fun m => NoDup (PyDict.keys m))).
  intros. by apply PyDictFacts.NoDup_keys_update.
Qed.

Lemma build_metadata_eq partial data :
  build_metadata rt partial data
  = (metadata ← with_format partial data;
     streams ← py_iter (default (VList []) (PyDict.get "streams" data));
     add_streams rt 0 streams metadata).
Proof. done. Qed.

Lemma with_format_get partial data m k :
  with_format partial data = Returned m →
  k ≠ "file_size_bytes" → (∀ r, k ≠ "format_" +:+ r) →
  PyDict.get k m
  = PyDict.get k
      [("is_valid", VBool true);
       ("validation_method", VStr (if partial then "partial" else "full"))].
Proof.
  unfold with_format. intros H Hsize Hformat.
  destruct (PyDict.get "format" data) as [fmt|]; [|by injection H as <-].
  returned H. injection H as <-.
  destruct fmt as [| | | | | |d]; try done. injection H0 as <-.
  rewrite PyDictFacts.get_set_ne by done.
  apply PyDictFacts.get_update_notin.
  intros [r ->]%format_keys. by eapply Hformat.
Qed.

Lemma with_format_NoDup partial data m :
  with_format partial data = Returned m → NoDup (PyDict.keys m).
Proof.
  unfold with_format. intros H.
  assert (NoDup (PyDict.keys (V := pyval)
    [("is_valid", VBool true);
     ("validation_method", VStr (if partial then "partial" else "full"))])).
  { unfold PyDict.keys. simpl. apply NoDup_cons. split.
    - by intros ?%list_elem_of_singleton.
    - apply NoDup_singleton. }
  destruct (PyDict.get "format" data) as [fmt|]; [|by injection H as <-].
  returned H. injection H as <-.
  by apply PyDictFacts.NoDup_keys_set, PyDictFacts.NoDup_keys_update.
Qed.

Lemma build_metadata_get partial data o k :
  build_metadata rt partial data = Returned o →
  k ≠ "file_size_bytes" → (∀ r, k ≠ "format_" +:+ r) →
  (∀ r, k ≠ "stream_" +:+ r) →
  PyDict.get k o
  = PyDict.get k
      [("is_valid", VBool true);
       ("validation_method", VStr (if partial then "partial" else "full"))].
Proof.
  rewrite build_metadata_eq. intros H Hsize Hformat Hstream. returned H.
  erewrite add_streams_get by done. by eapply with_format_get.
Qed.

Lemma build_metadata_is_valid partial data o :
  build_metadata rt partial data = Returned o →
  PyDict.get "is_valid" o = Some (VBool true).
Proof. intros H. by erewrite build_metadata_get. Qed.

Lemma build_metadata_no_error partial data o :
  build_metadata rt partial data = Returned o → PyDict.get "error" o = None.
Proof. intros H. by erewrite build_metadata_get. Qed.

Lemma build_metadata_method partial data o :
  build_metadata rt partial data = Returned o →
  PyDict.get "validation_method" o
  = Some (VStr (if partial then "partial" else "full")).
Proof. intros H. by erewrite build_metadata_get. Qed.

Lemma build_metadata_NoDup partial data o :
  build_metadata rt partial data = Returned o → NoDup (PyDict.keys o).
Proof.
  rewrite build_metadata_eq. intros H. returned H.
  eapply add_streams_NoDup; [done|]. by eapply with_format_NoDup.
Qed.

(** A report that yields a record has a first stream, and every leaf of
    that stream is in the record under a key [stream_0_...]. *)
Lemma build_metadata_first_stream partial data o :
  truthy (default VNone (PyDict.get "streams" data)) = true →
  build_metadata rt partial data = Returned o →
  ∃ stream rest,
    PyDict.get "streams" data = Some (VList (VDict stream :: rest))
    ∧ (has_leaf (VDict stream) = true →
       ∃ k, k ∈ PyDict.keys o ∧ String.prefix "stream_0_" k = true).
Proof.
  rewrite build_metadata_eq. intros Htruthy H.
  apply py_bind_Returned in H as (m & Hm & H).
  apply py_bind_Returned in H as (l & Hl & H).
  destruct (PyDict.get "streams" data) as [streams|]; [|done].
  simpl in Htruthy, Hl. destruct streams as [| | | |s|xs|d]; try done.
  - destruct s as [|c s]; [done|]. injection Hl as <-. done.
  - injection Hl as <-. destruct xs as [|x xs]; [done|].
    apply add_streams_cons in H as (stream & -> & H).
    exists stream, xs. split; [done|]. intros Hleaf.
    set (pk := stream_parent_key rt 0 _) in H.
    destruct (flatten_dict stream pk "_") as [|[k v] items] eqn:Hflat.
    { apply flatten_dict_nil in Hflat. congruence. }
    assert (k ∈ PyDict.keys (flatten_dict stream pk "_")) as Hk.
    { rewrite Hflat. unfold PyDict.keys. simpl. apply elem_of_cons. by left. }
    exists k. split.
    + eapply add_streams_keys_mono; [done|].
      apply PyDictFacts.elem_of_keys_update. right. by rewrite <-Hflat.
    + apply stream_keys in Hk as [r ->].
      apply (prefix_app "stream_0_" r).
  - injection Hl as <-. destruct d as [|[k v] d]; [done|]. done.
Qed.
End MetadataFacts.

(** ** The validation task *)

Section TaskFacts.
Variable rt : runtime.

Lemma failure_fields o :
  is_failure o →
  PyDict.get "is_valid" o = Some (VBool false)
  ∧ ∃ msg, PyDict.get "error" o = Some (VStr msg) ∧ error_code msg.
Proof. intros (msg & rest & -> & Hmsg & _). split; [done|]. by exists msg. Qed.

Lemma failure_NoDup o : is_failure o → NoDup (PyDict.keys o).
Proof.
  intros (msg & rest & -> & _ & [->|[url ->]]); unfold PyDict.keys; simpl;
    by apply (bool_decide_unpack _).
Qed.

Lemma success_fields partial o :
  is_success rt partial o →
  PyDict.get "is_valid" o = Some (VBool true)
  ∧ PyDict.get "error" o = None
  ∧ PyDict.get "validation_method" o
    = Some (VStr (if partial then "partial" else "full")).
Proof.
  intros (data & _ & _ & H). split_and!.
  - by eapply build_metadata_is_valid.
  - by eapply build_metadata_no_error.
  - by eapply build_metadata_method.
Qed.

(** The task returns in every scan mode: what is raised inside
    [run_ffprobe] is caught there, and the test on the error text of a
    failed fast pass is a test on a string. *)
Lemma validate_url_entry_outcome url scan_mode tr :
  ∃ o tr', validate_url_entry rt url scan_mode tr = (Returned o, tr')
           ∧ (is_failure o ∨ ∃ partial, is_success rt partial o).
Proof.
  unfold validate_url_entry.
  destruct (contains "no_media_yet" url || contains "tiny_file" url).
  { eexists _, tr. split; [done|]. left. apply failure_intro. constructor. }
  case_bool_decide.
  { destruct (run_ffprobe_outcome rt url true tr) as (o & tr' & -> & Ho).
    exists o, tr'. split; [done|]. destruct Ho; eauto. }
  case_bool_decide.
  { destruct (run_ffprobe_outcome rt url false tr) as (o & tr' & -> & Ho).
    exists o, tr'. split; [done|]. destruct Ho; eauto. }
  case_bool_decide.
  2:{ eexists _, tr. split; [done|]. left. apply failure_intro. constructor. }
  destruct (run_ffprobe_outcome rt url true tr) as (fast & tr1 & Hfast & Ho).
  unfold mbind at 1, io_bind. rewrite Hfast.
  destruct Ho as [Hfail|Hok].
  - destruct Hfail as (msg & rest & -> & Hmsg & Hrest). simpl.
    unfold mbind, io_bind, lift. simpl.
    destruct (contains "no_media_streams" msg).
    + destruct (run_ffprobe_outcome rt url false tr1) as (o & tr' & -> & Ho).
      exists o, tr'. split; [done|]. destruct Ho; eauto.
    + eexists _, tr1. split; [done|]. left. by exists msg, rest.
  - destruct (success_fields _ _ Hok) as (-> & _). simpl.
    exists fast, tr1. split; [done|]. eauto.
Qed.
End TaskFacts.

(** C8. A failure of one URL never aborts the run. For every URL and every
    scan mode the validation task returns an outcome and raises nothing.
    The outcome is valid only as the record of a report with streams that
    the probe printed on exit status 0; every other outcome is a failure:
    [is_valid] is false and [error] holds one of the error texts of the
    program (HTTP error, empty body, probe error, general error, no media
    streams, skipped sentinel, invalid scan mode). Whatever the body of a
    probe attempt raises is caught and returned as such a failure:
    [http_error: ...] for an exception of the HTTP library, and
    [general_error: ...] with the URL for any other. *)
Theorem validate_url_entry_total (rt : runtime) (url scan_mode : string)
    (tr : list event) :
  (∃ o tr',
     validate_url_entry rt url scan_mode tr = (Returned o, tr')
     ∧ (((∃ partial, is_success rt partial o)
         ∧ PyDict.get "is_valid" o = Some (VBool true)
         ∧ PyDict.get "error" o = None)
        ∨ (is_failure o
           ∧ PyDict.get "is_valid" o = Some (VBool false)
           ∧ ∃ msg, PyDict.get "error" o = Some (VStr msg)
                    ∧ error_code msg)))
  ∧ ∀ partial tr0 e tr',
      run_ffprobe_try rt url partial tr0 = (Raised e, tr') →
      ∃ msg,
        error_code msg
        ∧ run_ffprobe rt url partial tr0
          = (Returned
               (("is_valid", VBool false) :: ("error", VStr msg)
                :: match e with
                   | RequestException _ => []
                   | OtherException _ => [("url", VStr url)]
                   end),
             tr')
        ∧ msg = match e with
                | RequestException text => "http_error: " +:+ text
                | OtherException text => "general_error: " +:+ text
                end.
Proof.
  split.
  - destruct (validate_url_entry_outcome rt url scan_mode tr)
      as (o & tr' & H & [Hfail|[partial Hok]]); exists o, tr';
      (split; [done|]).
    + right. split; [done|]. by apply failure_fields.
    + left. destruct (success_fields rt partial o Hok) as (? & ? & _). eauto.
  - intros partial tr0 e tr' Hraise. unfold run_ffprobe, try_except.
    rewrite Hraise. destruct e as [text|text]; eexists;
      (split; [constructor|done]).
Qed.

(** C7. A URL that contains one of the markers [no_media_yet] and
    [tiny_file] is rejected with the error [skipped_unsolved_or_tiny] in
    every scan mode, recognised or not, and the task performs no request and
    starts no subprocess: the trace is the one it was given. *)
Theorem sentinel_url_skipped (rt : runtime) (url scan_mode : string)
    (tr : list event) :
  contains "no_media_yet" url = true ∨ contains "tiny_file" url = true →
  validate_url_entry rt url scan_mode tr
  = (Returned [("is_valid", VBool false);
               ("error", VStr "skipped_unsolved_or_tiny")], tr).
Proof.
  intros Hmark. unfold validate_url_entry.
  assert (contains "no_media_yet" url || contains "tiny_file" url = true) as ->.
  { apply orb_true_iff. done. }
  done.
Qed.

Lemma sentinel_url_skipped_witness :
  validate_url_entry (scripted [] 0 VNone) "https://host/tiny_file_7.mp4"
    "no-such-mode" []
  = (Returned [("is_valid", VBool false);
               ("error", VStr "skipped_unsolved_or_tiny")], []).
Proof. apply sentinel_url_skipped. right. reflexivity. Defined.

(** *** Validation records *)

Lemma full_row_data_get_in row o k v :
  NoDup (PyDict.keys o) → PyDict.get k o = Some v →
  PyDict.get k (full_row_data row o) = Some v.
Proof. intros. by apply PyDictFacts.get_update_in. Qed.

Lemma full_row_data_keys row o k :
  k ∈ PyDict.keys o → k ∈ PyDict.keys (full_row_data row o).
Proof. intros. apply PyDictFacts.elem_of_keys_update. by right. Qed.

Lemma full_row_data_no_error row o :
  PyDict.get "error" o = None → PyDict.get "error" (full_row_data row o) = None.
Proof.
  intros Ho. unfold full_row_data.
  rewrite PyDictFacts.get_update_notin; [done|]. by apply PyDictFacts.get_None.
Qed.

(** C1, as the code has it. The record that the harvest loop builds from the
    outcome of a validation task: when [is_valid] is true it has no [error]
    key, the probe report had a first stream entry, and the record has a key
    that starts with [stream_0_] whenever that entry has a leaf (a value
    that is not a dictionary, at any depth); when [is_valid] is false it has
    an [error] key with a non-empty string. *)
Theorem validation_record_invariant (rt : runtime) (url scan_mode : string)
    (tr : list event) (row : SourceEntry) :
  ∃ o tr',
    validate_url_entry rt url scan_mode tr = (Returned o, tr')
    ∧ (PyDict.get "is_valid" (full_row_data row o) = Some (VBool true) →
       PyDict.get "error" (full_row_data row o) = None
       ∧ ∃ data stream rest,
           probed rt data
           ∧ PyDict.get "streams" data = Some (VList (VDict stream :: rest))
           ∧ (has_leaf (VDict stream) = true →
              ∃ k, k ∈ PyDict.keys (full_row_data row o)
                   ∧ String.prefix "stream_0_" k = true))
    ∧ (PyDict.get "is_valid" (full_row_data row o) = Some (VBool false) →
       ∃ msg, PyDict.get "error" (full_row_data row o) = Some (VStr msg)
              ∧ msg ≠ "").
Proof.
  destruct (validate_url_entry_outcome rt url scan_mode tr)
    as (o & tr' & H & [Hfail|[partial Hok]]); exists o, tr'; (split; [done|]).
  - destruct (failure_fields _ Hfail) as (Hvalid & msg & Herror & Hmsg).
    pose proof (failure_NoDup _ Hfail) as Hnd.
    rewrite (full_row_data_get_in row o _ _ Hnd Hvalid).
    rewrite (full_row_data_get_in row o _ _ Hnd Herror).
    split; [done|]. intros _. exists msg. split; [done|].
    by apply error_code_nonempty.
  - destruct (success_fields _ _ _ Hok) as (Hvalid & Herror & _).
    destruct Hok as (data & Hprobed & Htruthy & Hbuild).
    pose proof (build_metadata_NoDup _ _ _ _ Hbuild) as Hnd.
    rewrite (full_row_data_get_in row o _ _ Hnd Hvalid).
    split; [|done]. intros _. split; [by apply full_row_data_no_error|].
    destruct (build_metadata_first_stream _ _ _ _ Htruthy Hbuild)
      as (stream & rest & Hstreams & Hkey).
    exists data, stream, rest. split_and!; [done..|].
    intros (k & Hk & Hprefix)%Hkey. exists k. split; [|done].
    by apply full_row_data_keys.
Qed.

Lemma validation_record_invariant_witness :
  let rt :=
    scripted [Byte.x00] 0
      (VDict [("streams", VList [VDict [("index", VInt 0)]])]) in
  ∃ o tr',
    validate_url_entry rt "https://host/a.mp4" "fast" [] = (Returned o, tr')
    ∧ PyDict.get "error" (full_row_data sample_row o) = None
    ∧ ∃ k, k ∈ PyDict.keys (full_row_data sample_row o)
           ∧ String.prefix "stream_0_" k = true.
Proof.
  intros rt.
  destruct (validation_record_invariant rt "https://host/a.mp4" "fast" []
              sample_row) as (o & tr' & Hrun & Hvalid & _).
  exists o, tr'. split; [done|].
  assert (o = [("is_valid", VBool true);
               ("validation_method", VStr "partial");
               ("stream_0_unknown_index", VInt 0)]) as ->.
  { vm_compute in Hrun. by injection Hrun as <- _. }
  destruct (Hvalid eq_refl)
    as (Herror & data & stream & rest & Hprobed & Hstreams & Hkey).
  split; [done|].
  destruct Hprobed as (tr0 & command & input & timeout & result & _ & _ & Hjson).
  injection Hjson as <-. injection Hstreams as <- _. by apply Hkey.
Defined.

(** C1 as it is stated fails: a probe report whose only stream entry is the
    empty object gives a valid record with no key that starts with
    [stream_0_]. *)
Lemma valid_record_without_stream_key :
  let rt := scripted [Byte.x00] 0 (VDict [("streams", VList [VDict []])]) in
  ∃ o tr',
    validate_url_entry rt "https://host/a.mp4" "fast" [] = (Returned o, tr')
    ∧ full_row_data sample_row o
      = [("original_url", VStr "https://host/page");
         ("actual_url", VStr "https://host/a.mp4");
         ("media_type", VStr "video");
         ("is_valid", VBool true);
         ("validation_method", VStr "partial")]
    ∧ ¬ ∃ k, k ∈ PyDict.keys (full_row_data sample_row o)
             ∧ String.prefix "stream_0_" k = true.
Proof.
  eexists _, _. split; [reflexivity|]. split; [reflexivity|].
  intros (k & Hk & Hprefix). vm_compute in Hk.
  repeat (apply elem_of_cons in Hk as [->|Hk]; [done|]).
  by apply elem_of_nil in Hk.
Qed.

(** ** Empty bodies *)

(** C6 as it is stated fails: in scan mode [full] a response with status 200
    and an empty body is handed to the probe, and the outcome is whatever
    the probe makes of no input. *)
Lemma empty_body_probed_in_full_mode :
  let rt := scripted [] 1 VNone in
  let url := "https://host/a.mp4" in
  session_get rt [] url "bytes=0-104857600" 120 = Returned (ok_response url [])
  ∧ validate_url_entry rt url "full" []
    = (Returned [("is_valid", VBool false); ("error", VStr "ffprobe_error: ")],
       [EvGet url "bytes=0-104857600" 120;
        EvRun ["ffprobe"; "-v"; "quiet"; "-print_format"; "json";
               "-show_streams"; "-show_format"; "-"] [] 60]).
Proof. split; reflexivity. Qed.

(** C6, as the code has it. In the fast pass (scan modes [fast] and
    [two-pass], for a URL that is not skipped) a response with a success
    status and an empty body gives the failure [empty_response_body], and
    the probe is not started: the request is the only effect. *)
Theorem empty_body_fast_pass (rt : runtime) (url scan_mode : string)
    (tr : list event) (response : http_response) :
  contains "no_media_yet" url || contains "tiny_file" url = false →
  scan_mode = "fast" ∨ scan_mode = "two-pass" →
  session_get rt tr url "bytes=0-5242880" 45 = Returned response →
  ¬ (400 ≤ status_code response < 600) →
  content response = Returned [] →
  validate_url_entry rt url scan_mode tr
  = (Returned [("is_valid", VBool false); ("error", VStr "empty_response_body")],
     tr ++ [EvGet url "bytes=0-5242880" 45]).
Proof.
  intros Hurl Hmode Hget Hstatus Hcontent.
  assert (run_ffprobe rt url true tr
          = (Returned [("is_valid", VBool false);
                       ("error", VStr "empty_response_body")],
             tr ++ [EvGet url "bytes=0-5242880" 45])) as Hfast.
  { unfold run_ffprobe, try_except, run_ffprobe_try, mbind, io_bind,
      session_get_call, lift.
    change ("bytes=0-" +:+ pretty (PROBE_SIZE_MB * 1024 * 1024))
      with "bytes=0-5242880".
    rewrite Hget. unfold raise_for_status.
    rewrite !bool_decide_eq_false_2 by lia. by rewrite Hcontent. }
  unfold validate_url_entry. rewrite Hurl.
  destruct Hmode as [-> | ->]; simpl; [done|].
  unfold mbind at 1, io_bind. by rewrite Hfast.
Qed.

Lemma empty_body_fast_pass_witness :
  validate_url_entry (scripted [] 0 VNone) "https://host/a.mp4" "two-pass" []
  = (Returned [("is_valid", VBool false); ("error", VStr "empty_response_body")],
     [EvGet "https://host/a.mp4" "bytes=0-5242880" 45]).
Proof.
  apply (empty_body_fast_pass (scripted [] 0 VNone) "https://host/a.mp4"
           "two-pass" [] (ok_response "https://host/a.mp4" [])).
  - reflexivity.
  - right. reflexivity.
  - reflexivity.
  - simpl. lia.
  - reflexivity.
Defined.

(** ** Two-pass escalation *)

Section TwoPass.
Variable rt : runtime.

(** A fast pass that succeeds is final. *)
Lemma two_pass_valid_fast url tr fast tr1 :
  contains "no_media_yet" url || contains "tiny_file" url = false →
  run_ffprobe rt url true tr = (Returned fast, tr1) →
  PyDict.get "is_valid" fast = Some (VBool true) →
  validate_url_entry rt url "two-pass" tr = (Returned fast, tr1).
Proof.
  intros Hurl Hfast Hvalid. unfold validate_url_entry. rewrite Hurl. simpl.
  unfold mbind at 1, io_bind. by rewrite Hfast, Hvalid.
Qed.

(** After a failed fast pass the deep pass runs exactly when the error
    text of the fast pass contains [no_media_streams]. *)
Lemma two_pass_failed_fast url tr msg rest tr1 :
  contains "no_media_yet" url || contains "tiny_file" url = false →
  run_ffprobe rt url true tr
  = (Returned (("is_valid", VBool false) :: ("error", VStr msg) :: rest), tr1) →
  validate_url_entry rt url "two-pass" tr
  = if contains "no_media_streams" msg
    then run_ffprobe rt url false tr1
    else (Returned (("is_valid", VBool false) :: ("error", VStr msg) :: rest),
          tr1).
Proof.
  intros Hurl Hfast. unfold validate_url_entry. rewrite Hurl. simpl.
  unfold mbind at 1, io_bind. rewrite Hfast. simpl.
  unfold mbind, io_bind, lift. simpl.
  by destruct (contains "no_media_streams" msg).
Qed.

(** One attempt makes one request, and starts the probe at most once. *)
Lemma run_ffprobe_trace url partial tr :
  ∃ rest,
    (run_ffprobe rt url partial tr).2
    = tr ++ EvGet url
              (if partial then "bytes=0-5242880" else "bytes=0-104857600")
              (if partial then 45 else 120) :: rest
    ∧ (rest = [] ∨ ∃ command input, rest = [EvRun command input 60]).
Proof.
  unfold run_ffprobe, try_except, run_ffprobe_try, mbind, io_bind,
    session_get_call, subprocess_run_call,
    lift, mret, io_ret.
  change ("bytes=0-" +:+ pretty (PROBE_SIZE_MB * 1024 * 1024))
    with "bytes=0-5242880".
  change ("bytes=0-" +:+ pretty (DEEP_SCAN_SIZE_MB * 1024 * 1024))
    with "bytes=0-104857600".
  repeat case_match; simplify_eq/=;
    first [ by exists []; split; [|left]
          | rewrite <-app_assoc; eexists [_]; split; [done|]; right; eauto ].
Qed.
End TwoPass.

(** C2 at a failing input. Under [two-pass] the fast pass on a URL that has
    [no_media_streams] in its name fails with an HTTP error, whose text
    quotes the URL; the test for escalation is a substring test on that
    text, so the deep request is made although the failure is not
    [no_media_streams]. *)
Theorem two_pass_escalates_on_http_error :
  let url := "https://host/no_media_streams.mp4" in
  let failure :=
    [("is_valid", VBool false);
     ("error", VStr ("http_error: 404 Client Error: Not Found for url: "
                     +:+ url))] in
  run_ffprobe not_found url true []
  = (Returned failure, [EvGet url "bytes=0-5242880" 45])
  ∧ validate_url_entry not_found url "two-pass" []
    = (Returned failure,
       [EvGet url "bytes=0-5242880" 45; EvGet url "bytes=0-104857600" 120]).
Proof. split; reflexivity. Qed.

(** ** Persistence *)

(** C10. A call of the persistence routine with no results writes nothing:
    it returns the files as they were, so that the previous snapshot is
    neither truncated nor replaced; this is what the saves of [main] do
    while the store is empty. *)
Theorem save_results_to_csv_empty (rt : runtime) (file_path : string)
    (disk : pydict csv_table) (calls : list (list (pydict pyval))) :
  save_results_to_csv rt [] file_path disk = disk
  ∧ files (save_progress rt
             {| processed_urls := []; files := disk; save_calls := calls |})
    = disk.
Proof. split; reflexivity. Qed.

(** *** The pending set *)

Lemma filter_all {A} (P : A → Prop) `{∀ x, Decision (P x)} (l : list A) :
  (∀ x, x ∈ l → P x) → filter P l = l.
Proof.
  induction l as [|x l IH]; intros Hl; [done|].
  rewrite filter_cons_True by (apply Hl, elem_of_cons; by left).
  f_equal. apply IH. intros y Hy. apply Hl, elem_of_cons. by right.
Qed.

Lemma filter_none {A} (P : A → Prop) `{∀ x, Decision (P x)} (l : list A) :
  (∀ x, x ∈ l → ¬ P x) → filter P l = [].
Proof.
  induction l as [|x l IH]; intros Hl; [done|].
  rewrite filter_cons_False by (apply Hl, elem_of_cons; by left).
  apply IH. intros y Hy. apply Hl, elem_of_cons. by right.
Qed.

Lemma mem_false {K V} `{EqDecision K} (k : K) (d : list (K * V)) :
  PyDict.mem k d = false ↔ PyDict.get k d = None.
Proof. unfold PyDict.mem. by destruct (PyDict.get k d). Qed.

Lemma mem_true {K V} `{EqDecision K} (k : K) (d : list (K * V)) :
  PyDict.mem k d = true ↔ k ∈ PyDict.keys d.
Proof.
  unfold PyDict.mem. destruct (PyDict.get k d) as [v|] eqn:Hget.
  - split; [intros _|done]. apply PyDictFacts.get_Some_elem in Hget.
    apply list_elem_of_fmap. by exists (k, v).
  - split; [done|]. intros Hk. by apply PyDictFacts.get_None in Hget.
Qed.

Example pending_skips_sentinel_media_type :
  let a := {| original_url := "p"; actual_url := "a.mp4"; media_type := "video" |} in
  let b := {| original_url := "p"; actual_url := "b.mp4";
              media_type := "tiny_file" |} in
  rows_to_validate (read_source_rows [a; b]) [] = [a].
Proof. reflexivity. Qed.

(** C3. The queue of an iteration holds exactly the source rows whose
    [actual_url] is not a key of the result store. When the URLs of the
    source rows are distinct (the data model makes [actual_url] a unique
    key) and the keys of the store are those of the first [N] of them, the
    queue is the rest of the rows: it has [M - N] members for [M] rows. *)
Theorem resume_pending_set (source_rows : list SourceEntry)
    (processed_urls : store) (N : nat) :
  (∀ row, row ∈ rows_to_validate source_rows processed_urls
          ↔ row ∈ source_rows
            ∧ PyDict.get (Some (actual_url row)) processed_urls = None)
  ∧ (NoDup (actual_url <$> source_rows) →
     (∀ url, Some url ∈ PyDict.keys processed_urls
             ↔ url ∈ take N (actual_url <$> source_rows)) →
     rows_to_validate source_rows processed_urls = drop N source_rows
     ∧ length (rows_to_validate source_rows processed_urls)
       = (length source_rows - N)%nat).
Proof.
  split.
  - intros row. unfold rows_to_validate.
    rewrite list_elem_of_filter, mem_false. tauto.
  - intros Hnd Hstore.
    assert (rows_to_validate source_rows processed_urls = drop N source_rows)
      as ->; [|by rewrite length_drop].
    unfold rows_to_validate.
    rewrite <-(take_drop N source_rows) at 1. rewrite filter_app.
    rewrite <-(take_drop N source_rows), fmap_app in Hnd.
    apply NoDup_app in Hnd as (_ & Hdisjoint & _).
    rewrite filter_none, filter_all; [done| |].
    + intros row Hrow. apply mem_false, PyDictFacts.get_None.
      rewrite Hstore, <-fmap_take. intros Htake.
      apply (Hdisjoint _ Htake). apply list_elem_of_fmap. by exists row.
    + intros row Hrow. rewrite not_false_iff_true. apply mem_true.
      rewrite Hstore, <-fmap_take. apply list_elem_of_fmap. by exists row.
Qed.

Lemma resume_pending_set_witness :
  let a := {| original_url := "p"; actual_url := "a.mp4"; media_type := "video" |} in
  let b := {| original_url := "p"; actual_url := "b.mp4"; media_type := "video" |} in
  let c := {| original_url := "p"; actual_url := "c.mp4"; media_type := "audio" |} in
  rows_to_validate [a; b; c] [(Some "a.mp4", [])] = [b; c]
  ∧ length (rows_to_validate [a; b; c] [(Some "a.mp4", [])]) = 2%nat.
Proof.
  intros a b c.
  apply (resume_pending_set [a; b; c] [(Some "a.mp4", [])] 1).
  - by apply (bool_decide_unpack _).
  - intros url. unfold PyDict.keys. simpl.
    rewrite !list_elem_of_singleton. split; [by intros [= ->]|by intros ->].
Defined.

(** *** The cadence of the saves *)

Section Cadence.
Variable rt : runtime.

Lemma harvest_snoc i completions completed st :
  harvest rt i (completions ++ [completed]) st
  = harvest_one rt (harvest rt i completions st)
      (i + length completions) completed.
Proof.
  revert i st. induction completions as [|c cs IH]; intros i st; simpl.
  - by rewrite Nat.add_0_r.
  - rewrite IH. f_equal. lia.
Qed.

Lemma batch_boundary (n : nat) :
  ((n + 1) `mod` 50 = 0 → (n + 1) `div` 50 = S (n `div` 50)
                           ∧ 50 * S (n `div` 50) = n + 1)%nat
  ∧ ((n + 1) `mod` 50 ≠ 0 → (n + 1) `div` 50 = n `div` 50)%nat.
Proof.
  pose proof (Nat.div_mod_eq (n + 1) 50).
  pose proof (Nat.div_mod_eq n 50).
  pose proof (Nat.mod_upper_bound n 50).
  pose proof (Nat.mod_upper_bound (n + 1) 50).
  split; intros; lia.
Qed.

Lemma harvest_one_processed_urls st i completed :
  processed_urls (harvest_one rt st i completed)
  = PyDict.set (Some (actual_url completed.1))
      (full_row_data completed.1 completed.2) (processed_urls st).
Proof. unfold harvest_one. by case_bool_decide. Qed.

(** The harvest loop merges every result into the store. *)
Lemma harvest_processed_urls i completions st :
  processed_urls (harvest rt i completions st)
  = merged (processed_urls st) completions.
Proof.
  revert i st. induction completions as [|c cs IH]; intros i st; [done|].
  cbn [harvest]. by rewrite IH, harvest_one_processed_urls.
Qed.

Lemma harvest_one_save_calls st i completed :
  save_calls (harvest_one rt st i completed)
  = save_calls st
    ++ if bool_decide (((i + 1) `mod` 50)%nat = 0%nat)
       then [PyDict.values
               (PyDict.set (Some (actual_url completed.1))
                  (full_row_data completed.1 completed.2)
                  (processed_urls st))]
       else [].
Proof.
  unfold harvest_one, SAVE_BATCH_SIZE.
  case_bool_decide; [done|]. by rewrite app_nil_r.
Qed.

(** The harvest loop saves after each full batch: its [k]-th save passes
    the store as it is after [50 * (k + 1)] completions. *)
Lemma harvest_save_calls completions st :
  save_calls (harvest rt 0 completions st)
  = save_calls st
    ++ ((fun k => PyDict.values
                    (merged (processed_urls st)
                            (take (50 * S k) completions)))
        <$> seq 0 (length completions `div` 50)).
Proof.
  induction completions as [|c cs IH] using rev_ind.
  - cbn [harvest length]. by rewrite app_nil_r.
  - rewrite harvest_snoc, harvest_one_save_calls, harvest_processed_urls, IH.
    rewrite Nat.add_0_l, <-app_assoc, length_app. f_equal.
    change (length [c]) with 1%nat.
    destruct (batch_boundary (length cs)) as [Hfull Hpart].
    assert ((fun k => PyDict.values
               (merged (processed_urls st) (take (50 * S k) (cs ++ [c]))))
            <$> seq 0 (length cs `div` 50)
            = (fun k => PyDict.values
                 (merged (processed_urls st) (take (50 * S k) cs)))
              <$> seq 0 (length cs `div` 50)) as Hcalls.
    { apply Forall_fmap_ext_1, Forall_forall. intros k [_ Hk]%elem_of_seq.
      rewrite take_app_le; [done|].
      pose proof (Nat.div_mod_eq (length cs) 50). lia. }
    case_bool_decide as Hmod.
    + destruct (Hfull Hmod) as [-> Hlen].
      rewrite seq_S, fmap_app, Hcalls. cbn [fmap list_fmap].
      rewrite Nat.add_0_l, Hlen. f_equal.
      rewrite take_ge by (rewrite length_app; simpl; lia).
      unfold merged. by rewrite foldl_app.
    + by rewrite (Hpart Hmod), Hcalls, app_nil_r.
Qed.

Lemma scan_pass_save_calls completions st :
  save_calls (scan_pass rt completions st)
  = save_calls st
    ++ ((fun k => PyDict.values
                    (merged (processed_urls st)
                            (take (50 * S k) completions)))
        <$> seq 0 (length completions `div` 50))
    ++ [PyDict.values (merged (processed_urls st) completions)].
Proof.
  unfold scan_pass, save_progress. cbn [save_calls].
  by rewrite harvest_save_calls, harvest_processed_urls, <-app_assoc.
Qed.

Lemma merged_not_nil processed completions :
  completions ≠ [] → merged processed completions ≠ [].
Proof.
  destruct completions as [|c cs _] using rev_ind; [done|]. intros _.
  unfold merged. rewrite foldl_app. apply PyDictFacts.set_not_nil.
Qed.

Lemma merged_snoc (s : store) completions completed :
  merged s (completions ++ [completed])
  = PyDict.set (Some (actual_url completed.1))
      (full_row_data completed.1 completed.2) (merged s completions).
Proof. unfold merged. by rewrite foldl_app. Qed.

Lemma harvest_app completions rest : ∀ i st,
  harvest rt i (completions ++ rest) st
  = harvest rt (i + length completions) rest (harvest rt i completions st).
Proof.
  induction completions as [|c cs IH]; intros i st; simpl.
  - by rewrite Nat.add_0_r.
  - rewrite IH. f_equal. lia.
Qed.

(** A turn of the harvest loop that completes a batch writes the store
    over the output file; any other turn leaves the files alone. *)
Lemma harvest_files_snoc completions completed st :
  files (harvest rt 0 (completions ++ [completed]) st)
  = if bool_decide (((length completions + 1) `mod` 50)%nat = 0%nat)
    then PyDict.set OUTPUT_CSV
           (results_table rt
              (PyDict.values
                 (merged (processed_urls st) (completions ++ [completed]))))
           (files (harvest rt 0 completions st))
    else files (harvest rt 0 completions st).
Proof.
  rewrite harvest_snoc, Nat.add_0_l. unfold harvest_one, SAVE_BATCH_SIZE.
  case_bool_decide; [|done].
  unfold save_progress, save_results_to_csv. cbn [files processed_urls].
  rewrite harvest_processed_urls, <-merged_snoc.
  rewrite bool_decide_eq_false_2; [done|].
  unfold PyDict.values. intros Hnil%fmap_nil_inv.
  by apply (merged_not_nil (processed_urls st) (completions ++ [completed]));
    [destruct completions|].
Qed.

(** The output file in the course of the harvest loop. *)
Lemma harvest_files completions st :
  PyDict.get OUTPUT_CSV (files (harvest rt 0 completions st))
  = if bool_decide (length completions < 50)%nat
    then PyDict.get OUTPUT_CSV (files st)
    else Some (results_table rt
                 (PyDict.values
                    (merged (processed_urls st)
                       (take (50 * (length completions `div` 50))
                             completions)))).
Proof.
  induction completions as [|c cs IH] using rev_ind.
  - by rewrite bool_decide_eq_true_2 by (cbn [length]; lia).
  - rewrite harvest_files_snoc, length_app. change (length [c]) with 1%nat.
    destruct (batch_boundary (length cs)) as [Hfull Hpart].
    destruct (decide (((length cs + 1) `mod` 50)%nat = 0%nat)) as [Hmod|Hmod].
    + rewrite (bool_decide_eq_true_2 _ Hmod).
      destruct (Hfull Hmod) as [-> Hlen].
      rewrite PyDictFacts.get_set_eq.
      rewrite (bool_decide_eq_false_2 (length cs + 1 < 50)%nat) by lia.
      by rewrite take_ge by (rewrite length_app; cbn [length]; lia).
    + rewrite (bool_decide_eq_false_2 _ Hmod), (Hpart Hmod), IH.
      pose proof (Nat.div_mod_eq (length cs) 50).
      pose proof (Nat.div_mod_eq (length cs + 1) 50).
      pose proof (Nat.mod_upper_bound (length cs + 1) 50).
      destruct (decide (length cs < 50)%nat) as [Hlt|Hge].
      * rewrite (bool_decide_eq_true_2 _ Hlt).
        by rewrite (bool_decide_eq_true_2 (length cs + 1 < 50)%nat) by lia.
      * rewrite (bool_decide_eq_false_2 _ Hge).
        rewrite (bool_decide_eq_false_2 (length cs + 1 < 50)%nat) by lia.
        by rewrite take_app_le by lia.
Qed.

(** The file after the harvest loop has completed [50 * (k + 1)] tasks. *)
Lemma harvest_files_batch completions st k :
  (50 * S k ≤ length completions)%nat →
  PyDict.get OUTPUT_CSV
    (files (harvest rt 0 (take (50 * S k) completions) st))
  = Some (results_table rt
            (PyDict.values
               (merged (processed_urls st) (take (50 * S k) completions)))).
Proof.
  intros Hk. rewrite harvest_files.
  assert (length (take (50 * S k) completions) = (50 * S k)%nat) as ->
    by (rewrite length_take; lia).
  rewrite bool_decide_eq_false_2 by lia.
  rewrite (Nat.mul_comm 50 (S k)), Nat.div_mul by lia.
  rewrite (Nat.mul_comm (S k) 50). by rewrite take_take, Nat.min_id.
Qed.

(** The final save writes the store over the output file, unless the store
    is empty. *)
Lemma scan_pass_files_store completions st :
  merged (processed_urls st) completions ≠ [] →
  PyDict.get OUTPUT_CSV (files (scan_pass rt completions st))
  = Some (results_table rt
            (PyDict.values (merged (processed_urls st) completions))).
Proof.
  intros Hne. unfold scan_pass, save_progress. cbn [files].
  rewrite harvest_processed_urls. unfold save_results_to_csv.
  rewrite bool_decide_eq_false_2; [apply PyDictFacts.get_set_eq|].
  unfold PyDict.values. by intros Hnil%fmap_nil_inv.
Qed.

(** The table that is written holds every record of the store. *)
Lemma results_table_holds_store (s : store) :
  holds_store rt s (results_table rt (PyDict.values s)).
Proof.
  unfold holds_store, results_table, PyDict.values.
  cbn [fieldnames table_rows]. split; [done|].
  split; [by rewrite !length_fmap|].
  intros i key r Hi. by rewrite !list_lookup_fmap, Hi.
Qed.

(** The final save writes the whole store over the output file. *)
Lemma scan_pass_files completions st :
  completions ≠ [] →
  PyDict.get OUTPUT_CSV (files (scan_pass rt completions st))
  = Some (results_table rt
            (PyDict.values (merged (processed_urls st) completions))).
Proof.
  intros Hne. unfold scan_pass, save_progress. cbn [files].
  rewrite harvest_processed_urls. unfold save_results_to_csv.
  rewrite bool_decide_eq_false_2.
  - apply PyDictFacts.get_set_eq.
  - unfold PyDict.values. intros Hnil%fmap_nil_inv.
    by apply (merged_not_nil (processed_urls st) completions).
Qed.
End Cadence.

(** *** Reloading the output *)

Section RoundTrip.
Variable rt : runtime.

Lemma elem_of_sorted_headers results h :
  h ∈ sorted_headers results ↔ ∃ r, r ∈ results ∧ h ∈ PyDict.keys r.
Proof.
  unfold sorted_headers.
  rewrite merge_sort_Permutation, elem_of_remove_dups, list_elem_of_join.
  split.
  - intros (l & Hh & (r & -> & Hr)%list_elem_of_fmap). eauto.
  - intros (r & Hr & Hh). exists (PyDict.keys r). split; [done|].
    apply list_elem_of_fmap. eauto.
Qed.

Lemma NoDup_sorted_headers results : NoDup (sorted_headers results).
Proof.
  unfold sorted_headers. rewrite merge_sort_Permutation.
  apply NoDup_remove_dups.
Qed.




Lemma parse_is_valid_get row k :
  k ≠ "is_valid" → PyDict.get k (parse_is_valid row) = PyDict.get k row.
Proof.
  intros Hk. unfold parse_is_valid.
  destruct (PyDict.get "is_valid" row); [|done].
  by apply PyDictFacts.get_set_ne.
Qed.




End RoundTrip.




(** *** The stores of the program *)

Section StoreFacts.
Variable rt : runtime.

Lemma elem_of_set {K V} `{EqDecision K} (k k0 : K) (v v0 : V)
    (d : list (K * V)) :
  (k, v) ∈ PyDict.set k0 v0 d → (k, v) = (k0, v0) ∨ (k, v) ∈ d.
Proof.
  induction d as [|[k' v'] d IH]; simpl.
  - intros ->%list_elem_of_singleton. by left.
  - destruct (decide (k' = k0)) as [->|Hne].
    + intros [->|Hin]%elem_of_cons; [by left|].
      right. apply elem_of_cons. by right.
    + intros [->|Hin]%elem_of_cons.
      * right. apply elem_of_cons. by left.
      * destruct (IH Hin) as [->|Hd]; [by left|].
        right. apply elem_of_cons. by right.
Qed.





(** The keys of the record of a successful probe. *)
Lemma build_metadata_keys partial data o k :
  build_metadata rt partial data = Returned o →
  k ∈ PyDict.keys o →
  k ∈ ["is_valid"; "validation_method"; "file_size_bytes"]
  ∨ (∃ r, k = "format_" +:+ r) ∨ (∃ r, k = "stream_" +:+ r).
Proof.
  rewrite build_metadata_eq. intros H.
  apply py_bind_Returned in H as (m & Hm & H).
  apply py_bind_Returned in H as (l & _ & H). revert k.
  eapply (add_streams_preserves rt
            (fun m => ∀ k, k ∈ PyDict.keys m →
               k ∈ ["is_valid"; "validation_method"; "file_size_bytes"]
               ∨ (∃ r, k = "format_" +:+ r) ∨ (∃ r, k = "stream_" +:+ r)));
    [|exact H|].
  - intros m' i ct d Hm' k [Hk|Hk]%PyDictFacts.elem_of_keys_update; [auto|].
    apply stream_keys in Hk as [r ->]. right; right. by eexists.
  - unfold with_format in Hm.
    assert (∀ k, k ∈ PyDict.keys (V := pyval)
              [("is_valid", VBool true);
               ("validation_method",
                VStr (if partial then "partial" else "full"))] →
            k ∈ ["is_valid"; "validation_method"; "file_size_bytes"])
      as Hbase.
    { intros k Hk. unfold PyDict.keys in Hk. simpl in Hk.
      rewrite !elem_of_cons in *. tauto. }
    destruct (PyDict.get "format" data) as [fmt|].
    2:{ injection Hm as <-. intros k Hk. left. by apply Hbase. }
    apply py_bind_Returned in Hm as (flat & Hflat & Hm).
    apply py_bind_Returned in Hm as (size & _ & Hm). injection Hm as <-.
    destruct fmt as [| | | | | |d]; try done. injection Hflat as <-.
    intros k [->|Hk]%PyDictFacts.elem_of_keys_set.
    { left. rewrite !elem_of_cons. tauto. }
    apply PyDictFacts.elem_of_keys_update in Hk as [Hk|Hk].
    + left. by apply Hbase.
    + right; left. by apply format_keys in Hk.
Qed.

(** No outcome of a validation task has a key [actual_url]. *)
Lemma outcome_no_actual_url url scan_mode tr o tr' :
  validate_url_entry rt url scan_mode tr = (Returned o, tr') →
  "actual_url" ∉ PyDict.keys o.
Proof.
  intros H.
  destruct (validate_url_entry_outcome rt url scan_mode tr)
    as (o' & tr'' & H' & Ho). rewrite H in H'. injection H' as <- <-.
  destruct Ho as [(msg & rest & -> & _ & [->|[u ->]])
                 |(partial & data & _ & _ & Hbuild)].
  - unfold PyDict.keys. simpl. rewrite !elem_of_cons, elem_of_nil.
    intros [?|[?|[]]]; done.
  - unfold PyDict.keys. simpl. rewrite !elem_of_cons, elem_of_nil.
    intros [?|[?|[?|[]]]]; done.
  - intros Hk. eapply build_metadata_keys in Hk; [|done].
    rewrite !elem_of_cons, elem_of_nil in Hk.
    destruct Hk as [[?|[?|[?|[]]]]|[[r ?]|[r ?]]]; done.
Qed.
End StoreFacts.

(** ** Losslessness of the flattening *)

Lemma leaves_dict d :
  leaves (VDict d)
  = flat_map (fun kv => (fun leaf => (kv.1 :: leaf.1, leaf.2)) <$> leaves kv.2) d.
Proof. simpl. induction d as [|[k v] d IH]; simpl; [done|]. by rewrite IH. Qed.

Lemma fmap_flat_map {A B C} (f : B → C) (g : A → list B) (l : list A) :
  f <$> flat_map g l = flat_map (fun x => f <$> g x) l.
Proof.
  induction l as [|x l IH]; [done|]. cbn [flat_map].
  by rewrite fmap_app, IH.
Qed.

Lemma flat_map_ext_Forall {A B} (f g : A → list B) (l : list A) :
  Forall (fun x => f x = g x) l → flat_map f l = flat_map g l.
Proof. induction 1 as [|x l Hx _ IH]; [done|]. cbn [flat_map]. by rewrite Hx, IH. Qed.

Lemma joined_dict sep key d :
  joined sep key (VDict d)
  = flat_map (fun kv => joined sep (new_key key sep kv.1) kv.2) d.
Proof.
  unfold joined. rewrite leaves_dict, fmap_flat_map.
  apply flat_map_ext_Forall, Forall_forall. intros [k v] _.
  by rewrite <-list_fmap_compose.
Qed.

Lemma NoDup_flat_map_fst {A K V} (g : A → list (K * V)) (l : list A) (x : A) :
  NoDup (flat_map g l).*1 → x ∈ l → NoDup (g x).*1.
Proof.
  induction l as [|y l IH]; intros Hnd Hx; [by apply elem_of_nil in Hx|].
  cbn [flat_map] in Hnd. rewrite fmap_app in Hnd.
  apply NoDup_app in Hnd as (Hy & _ & Hl).
  apply elem_of_cons in Hx as [->|Hx]; auto.
Qed.

(** When no two leaves have the same joined key, flattening keeps every
    leaf: its result is the leaves under their joined keys. *)
Lemma flatten_entry_joined sep v : ∀ key,
  NoDup (joined sep key v).*1 → flatten_entry sep key v = joined sep key v.
Proof.
  induction v as [| | | | | |d IH] using pyval_ind; intros key Hnd; try done.
  rewrite flatten_entry_dict. unfold flatten_dict, flatten_items.
  rewrite joined_dict in Hnd |- *.
  rewrite (flat_map_ext_Forall _
             (fun kv => joined sep (new_key key sep kv.1) kv.2)).
  - by apply PyDictFacts.of_items_NoDup.
  - apply Forall_forall. intros [k v] Hkv. rewrite Forall_forall in IH.
    apply (IH (k, v) Hkv).
    by apply (NoDup_flat_map_fst
                (fun kv => joined sep (new_key key sep kv.1) kv.2) d (k, v)).
Qed.

(** In every case the keys of the result are the joined keys of the
    leaves: a leaf can lose its value to a later leaf with the same joined
    key, but no key goes missing and none is invented. *)
Lemma flatten_entry_key_set sep v : ∀ key k,
  k ∈ (flatten_entry sep key v).*1 ↔ k ∈ (joined sep key v).*1.
Proof.
  induction v as [| | | | | |d IH] using pyval_ind; intros key k; try done.
  rewrite flatten_entry_dict, joined_dict. unfold flatten_dict.
  change ((PyDict.of_items (flatten_items d key sep)).*1)
    with (PyDict.keys (PyDict.of_items (flatten_items d key sep))).
  rewrite PyDictFacts.elem_of_keys_of_items, elem_of_flatten_items.
  rewrite list_elem_of_fmap. rewrite Forall_forall in IH. split.
  - intros (k' & v' & Hd & Hk). apply (IH (k', v') Hd) in Hk.
    apply list_elem_of_fmap in Hk as (kv & -> & Hkv). exists kv.
    split; [done|]. apply list_elem_of_In, in_flat_map. exists (k', v').
    split; by apply list_elem_of_In.
  - intros (kv & -> & Hkv). apply list_elem_of_In, in_flat_map in Hkv.
    destruct Hkv as ([k' v'] & Hd%list_elem_of_In & Hkv%list_elem_of_In).
    exists k', v'. split; [done|]. apply (IH (k', v') Hd).
    apply list_elem_of_fmap. by exists kv.
Qed.

(** *** Keys of different objects *)

Lemma pretty_N_go_digits (x : N) : ∀ s,
  all_digits s = true → all_digits (pretty_N_go x s) = true.
Proof.
  induction (N.lt_wf_0 x) as [x _ IH]; intros s Hs.
  destruct (decide (x = 0)%N) as [->|Hx]; [by rewrite pretty_N_go_0|].
  rewrite pretty_N_go_step by lia. apply IH.
  - apply N.div_lt; lia.
  - simpl. rewrite Hs, andb_true_r. unfold pretty_N_char.
    by repeat case_match.
Qed.

Lemma pretty_nat_digits (i : nat) : all_digits (pretty i) = true.
Proof.
  unfold pretty, pretty_nat, pretty, pretty_N.
  case_decide; [done|]. by apply pretty_N_go_digits.
Qed.

(** Two strings of digits that are each followed by an underscore are the
    same when the whole strings are. *)
Lemma digits_underscore_inj (a b r1 r2 : string) :
  all_digits a = true → all_digits b = true →
  a +:+ "_" +:+ r1 = b +:+ "_" +:+ r2 → a = b.
Proof.
  revert b. induction a as [|c a IH]; intros [|c' b] Ha Hb Heq; try done.
  - injection Heq as <- _. by apply andb_true_iff in Hb as [? _].
  - injection Heq as -> _. by apply andb_true_iff in Ha as [? _].
  - injection Heq as -> Heq.
    apply andb_true_iff in Ha as [_ Ha]. apply andb_true_iff in Hb as [_ Hb].
    f_equal. by apply IH.
Qed.

Section KeySpaces.
Variable rt : runtime.

(** Streams at different positions never share a key, whatever their
    codec types are. *)
Lemma stream_keys_disjoint i j ct1 ct2 d1 d2 k :
  i ≠ j →
  k ∈ PyDict.keys (flatten_dict d1 (stream_parent_key rt i ct1) "_") →
  k ∉ PyDict.keys (flatten_dict d2 (stream_parent_key rt j ct2) "_").
Proof.
  intros Hij [r1 ->]%stream_keys [r2 Heq]%stream_keys. apply Hij.
  apply (inj (String.app "stream_")) in Heq.
  apply digits_underscore_inj in Heq; [|apply pretty_nat_digits..].
  by apply (inj pretty).
Qed.

(** The container never shares a key with a stream. *)
Lemma format_stream_keys_disjoint i ct d1 d2 k :
  k ∈ PyDict.keys (flatten_dict d1 "format" "_") →
  k ∉ PyDict.keys (flatten_dict d2 (stream_parent_key rt i ct) "_").
Proof. by intros [r1 ->]%format_keys [r2 Heq]%stream_keys. Qed.
End KeySpaces.

(** *** The whole record *)

Section RecordLayout.
Variable rt : runtime.

Lemma flatten_dict_NoDup d parent_key sep :
  NoDup (PyDict.keys (flatten_dict d parent_key sep)).
Proof. apply PyDictFacts.NoDup_keys_of_items. Qed.

(** The stream loop appends: no stream overwrites what is there. *)
Lemma add_streams_concat streams : ∀ i m o,
  add_streams rt i streams m = Returned o →
  NoDup (PyDict.keys m) →
  (∀ k j r, k ∈ PyDict.keys m → i ≤ j →
            k ≠ "stream_" +:+ pretty j +:+ "_" +:+ r)%nat →
  o = m ++ stream_items rt i streams.
Proof.
  induction streams as [|stream rest IH]; intros i m o H Hnd Hfresh.
  - injection H as <-. by rewrite app_nil_r.
  - apply add_streams_cons in H as (d & -> & H). cbn [stream_items].
    set (flat := flatten_dict d _ "_") in *.
    assert (PyDict.update m flat = m ++ flat) as Hupdate.
    { apply PyDictFacts.update_fresh. apply NoDup_app. split_and!.
      - done.
      - intros k Hm [r ->]%stream_keys. by eapply (Hfresh _ i r Hm).
      - apply flatten_dict_NoDup. }
    rewrite Hupdate in H. apply IH in H.
    + by rewrite <-app_assoc in H.
    + rewrite <-Hupdate. by apply PyDictFacts.NoDup_keys_update.
    + intros k j r Hk Hj. unfold PyDict.keys in Hk.
      rewrite fmap_app, elem_of_app in Hk. destruct Hk as [Hk|Hk].
      * apply (Hfresh k j r Hk). lia.
      * apply stream_keys in Hk as [r' ->]. intros Heq.
        apply (inj (String.app "stream_")) in Heq.
        apply digits_underscore_inj in Heq; [|apply pretty_nat_digits..].
        apply (inj pretty) in Heq. lia.
Qed.

Lemma with_format_concat partial data m :
  with_format partial data = Returned m →
  m = [("is_valid", VBool true);
       ("validation_method", VStr (if partial then "partial" else "full"))]
      ++ format_items data.
Proof.
  unfold with_format, format_items. intros H.
  destruct (PyDict.get "format" data) as [fmt|]; [|by injection H as <-].
  apply py_bind_Returned in H as (flat & Hflat & H).
  apply py_bind_Returned in H as (size & Hsize & H). injection H as <-.
  destruct fmt as [| | | | | |d]; try done.
  injection Hflat as <-. injection Hsize as <-.
  set (base := [("is_valid", VBool true); _]).
  assert (NoDup (PyDict.keys base ++ (flatten_dict d "format" "_").*1))
    as Hnd.
  { apply NoDup_app. split_and!.
    - by apply (bool_decide_unpack _).
    - intros k Hk [r ->]%format_keys. unfold PyDict.keys in Hk.
      simpl in Hk. rewrite !elem_of_cons, elem_of_nil in Hk.
      destruct Hk as [?|[?|[]]]; done.
    - apply flatten_dict_NoDup. }
  rewrite (PyDictFacts.update_fresh base) by done.
  change (PyDict.update (base ++ flatten_dict d "format" "_")
            [("file_size_bytes", default VNone (PyDict.get "size" d))]
          = base ++ flatten_dict d "format" "_"
            ++ [("file_size_bytes", default VNone (PyDict.get "size" d))]).
  rewrite PyDictFacts.update_fresh; [by rewrite <-app_assoc|].
  { change (NoDup ((PyDict.keys base ++ (flatten_dict d "format" "_").*1)
                   ++ ["file_size_bytes"])).
    apply NoDup_app. split_and!; [done| |apply NoDup_singleton].
    intros k Hk ->%list_elem_of_singleton.
    apply elem_of_app in Hk as [Hk|Hk].
    - unfold PyDict.keys in Hk. simpl in Hk.
      rewrite !elem_of_cons, elem_of_nil in Hk.
      destruct Hk as [?|[?|[]]]; done.
    - by apply format_keys in Hk as [r ?]. }
Qed.

(** The record of a successful probe is the two fixed fields, then the
    container, then the streams in order: merging one object never
    overwrites a field of another. *)
Lemma build_metadata_layout partial data o :
  build_metadata rt partial data = Returned o →
  ∃ streams,
    py_iter (default (VList []) (PyDict.get "streams" data))
    = Returned streams
    ∧ o = [("is_valid", VBool true);
           ("validation_method",
            VStr (if partial then "partial" else "full"))]
          ++ format_items data ++ stream_items rt 0 streams.
Proof.
  intros H. pose proof H as Hbuild. rewrite build_metadata_eq in H.
  apply py_bind_Returned in H as (m & Hm & H).
  apply py_bind_Returned in H as (streams & Hstreams & H).
  exists streams. split; [done|].
  pose proof (with_format_NoDup _ _ _ Hm) as Hnd.
  apply add_streams_concat in H; [|done|].
  - rewrite H. apply with_format_concat in Hm. by rewrite Hm, <-app_assoc.
  - intros k j r Hk _ ->. apply with_format_concat in Hm. subst m.
    unfold PyDict.keys, format_items in Hk. simpl in Hk.
    rewrite !elem_of_cons in Hk. destruct Hk as [?|[?|Hk]]; [done..|].
    destruct (PyDict.get "format" data) as [[| | | | | |fmt]|];
      try by apply elem_of_nil in Hk.
    rewrite fmap_app, elem_of_app in Hk.
    destruct Hk as [[r' ?]%format_keys|?%list_elem_of_singleton]; done.
Qed.
End RecordLayout.

(** C5 as it is stated fails: a key that contains an underscore can equal
    the joined path of a nested key. Two different leaves of the container
    then get the same key, and the record keeps one of them. *)
Lemma flatten_collision :
  let fmt := [("tags", VDict [("title", VStr "A")]); ("tags_title", VStr "B")] in
  let report :=
    VDict [("format", VDict fmt);
           ("streams", VList [VDict [("index", VInt 0)]])] in
  leaves (VDict fmt) = [(["tags"; "title"], VStr "A"); (["tags_title"], VStr "B")]
  ∧ path_key "format" "_" ["tags"; "title"] = path_key "format" "_" ["tags_title"]
  ∧ flatten_dict fmt "format" "_" = [("format_tags_title", VStr "B")]
  ∧ (validate_url_entry (scripted [Byte.x00] 0 report) "https://host/a.mp4"
       "fast" []).1
    = Returned [("is_valid", VBool true);
                ("validation_method", VStr "partial");
                ("format_tags_title", VStr "B");
                ("file_size_bytes", VNone);
                ("stream_0_unknown_index", VInt 0)].
Proof. repeat split; reflexivity. Qed.

(** C5, as the code has it. Flattening is a function of its input. The keys
    that an object gets are exactly the joined key paths of its leaves, and
    when no two leaves of the object have the same joined key, every leaf is
    in the result under its own key. The record of a probe report is the
    two fixed fields, then the items of the container followed by
    [file_size_bytes], then the items of each stream in order; the
    container and the streams never share a key, and neither do two streams
    at different positions. *)
Theorem flattening_lossless_without_key_collisions (rt : runtime) :
  (∀ d parent_key sep k,
     k ∈ PyDict.keys (flatten_dict d parent_key sep)
     ↔ k ∈ (joined sep parent_key (VDict d)).*1)
  ∧ (∀ d parent_key sep,
       NoDup (joined sep parent_key (VDict d)).*1 →
       flatten_dict d parent_key sep = joined sep parent_key (VDict d))
  ∧ (∀ partial data o,
       build_metadata rt partial data = Returned o →
       ∃ streams,
         py_iter (default (VList []) (PyDict.get "streams" data))
         = Returned streams
         ∧ o = [("is_valid", VBool true);
                ("validation_method",
                 VStr (if partial then "partial" else "full"))]
               ++ format_items data ++ stream_items rt 0 streams)
  ∧ (∀ i j ct1 ct2 d1 d2 k,
       i ≠ j →
       k ∈ PyDict.keys (flatten_dict d1 (stream_parent_key rt i ct1) "_") →
       k ∉ PyDict.keys (flatten_dict d2 (stream_parent_key rt j ct2) "_"))
  ∧ (∀ i ct d1 d2 k,
       k ∈ PyDict.keys (flatten_dict d1 "format" "_") →
       k ∉ PyDict.keys (flatten_dict d2 (stream_parent_key rt i ct) "_")).
Proof.
  split_and!.
  - intros d parent_key sep k. rewrite <-!flatten_entry_dict.
    apply flatten_entry_key_set.
  - intros d parent_key sep Hnd. rewrite <-flatten_entry_dict.
    by apply flatten_entry_joined.
  - apply build_metadata_layout.
  - apply stream_keys_disjoint.
  - apply format_stream_keys_disjoint.
Qed.

Lemma flattening_lossless_without_key_collisions_witness :
  let stream :=
    [("index", VInt 0); ("codec_type", VStr "video");
     ("disposition", VDict [("default", VInt 1); ("dub", VInt 0)]);
     ("tags", VDict [])] in
  flatten_dict stream "stream_0_video" "_"
  = [("stream_0_video_index", VInt 0);
     ("stream_0_video_codec_type", VStr "video");
     ("stream_0_video_disposition_default", VInt 1);
     ("stream_0_video_disposition_dub", VInt 0)].
Proof.
  intros stream.
  destruct (flattening_lossless_without_key_collisions (scripted [] 0 VNone))
    as (_ & Hkeep & _).
  rewrite (Hkeep stream "stream_0_video" "_").
  - reflexivity.
  - by apply (bool_decide_unpack _).
Defined.

(** C4. The cadence of the saves. The persistence routine is called after
    every 50 harvested completions and once more at the end of the pass,
    each time with all the records of the store as it is then, and each
    call writes them over the output file: when the harvest loop has
    completed [50 * (k + 1)] tasks (the rest of the pass being the loop
    over the other completions and the final save), the file holds the
    table of the whole store as it is at that point, and at the end of the
    pass it holds the table of the final store (unless that is empty). A
    pass of 120 completions calls the routine exactly 3 times, after the
    50th and the 100th completion and at the end. *)
Theorem persistence_cadence (rt : runtime)
    (completions : list (SourceEntry * pydict pyval)) (st : main_state) :
  save_calls (scan_pass rt completions st)
  = save_calls st
    ++ ((fun k => PyDict.values
                    (merged (processed_urls st) (take (50 * S k) completions)))
        <$> seq 0 (length completions `div` 50))
    ++ [PyDict.values (merged (processed_urls st) completions)]
  ∧ (∀ k, (50 * S k ≤ length completions)%nat →
       scan_pass rt completions st
       = save_progress rt
           (harvest rt (50 * S k) (drop (50 * S k) completions)
              (harvest rt 0 (take (50 * S k) completions) st))
       ∧ ∃ t,
           PyDict.get OUTPUT_CSV
             (files (harvest rt 0 (take (50 * S k) completions) st))
           = Some t
           ∧ holds_store rt
               (merged (processed_urls st) (take (50 * S k) completions)) t)
  ∧ (merged (processed_urls st) completions ≠ [] →
     ∃ t,
       PyDict.get OUTPUT_CSV (files (scan_pass rt completions st)) = Some t
       ∧ holds_store rt (merged (processed_urls st) completions) t)
  ∧ (length completions = 120%nat →
     save_calls (scan_pass rt completions st)
     = save_calls st
       ++ [PyDict.values (merged (processed_urls st) (take 50 completions));
           PyDict.values (merged (processed_urls st) (take 100 completions));
           PyDict.values (merged (processed_urls st) completions)]
     ∧ PyDict.get OUTPUT_CSV (files (scan_pass rt completions st))
       = Some (results_table rt
                 (PyDict.values (merged (processed_urls st) completions)))).
Proof.
  split; [apply scan_pass_save_calls|]. split; [|split].
  - intros k Hk. split.
    + unfold scan_pass. f_equal.
      rewrite <-(take_drop (50 * S k) completions) at 1.
      rewrite harvest_app, Nat.add_0_l. f_equal.
      rewrite length_take. lia.
    + eexists. split; [by apply harvest_files_batch|].
      apply results_table_holds_store.
  - intros Hne. eexists. split; [by apply scan_pass_files_store|].
    apply results_table_holds_store.
  - intros Hlen. split.
    + rewrite scan_pass_save_calls, Hlen. reflexivity.
    + apply scan_pass_files. by destruct completions.
Qed.

Lemma persistence_cadence_witness :
  let completions :=
    (fun i : nat =>
       ({| original_url := "https://host/page";
           actual_url := "https://host/" +:+ pretty i;
           media_type := "video" |},
        [("is_valid", VBool true); ("validation_method", VStr "partial")]))
    <$> seq 0 120 in
  let st := {| processed_urls := []; files := []; save_calls := [] |} in
  length (save_calls (scan_pass (scripted [] 0 VNone) completions st)) = 3%nat
  ∧ ∃ t,
      PyDict.get OUTPUT_CSV
        (files (harvest (scripted [] 0 VNone) 0
                  (take (50 * 2) completions) st))
      = Some t
      ∧ holds_store (scripted [] 0 VNone)
          (merged (processed_urls st) (take (50 * 2) completions)) t.
Proof.
  intros completions st.
  destruct (persistence_cadence (scripted [] 0 VNone) completions st)
    as (_ & Hbatch & _ & Hcalls).
  split.
  - destruct (Hcalls eq_refl) as [-> _]. reflexivity.
  - apply (Hbatch 1%nat). apply Nat.leb_le. reflexivity.
Defined.

(** * Further properties of the code *)

(** ** Effects and errors of a probe attempt *)

Lemma run_ffprobe_events (rt : runtime) (url : string) (partial : bool)
    (tr : list event) :
  (run_ffprobe rt url partial tr).2
  = tr ++ [EvGet url (attempt_range partial) (attempt_timeout partial)]
  ∨ ∃ response input,
      session_get rt tr url (attempt_range partial) (attempt_timeout partial)
      = Returned response
      ∧ content response = Returned input
      ∧ (run_ffprobe rt url partial tr).2
        = tr ++ [EvGet url (attempt_range partial) (attempt_timeout partial);
                 EvRun ffprobe_command input 60].
Proof.
  unfold run_ffprobe, try_except, run_ffprobe_try, mbind, io_bind,
    session_get_call, subprocess_run_call, lift, mret, io_ret,
    attempt_range, attempt_timeout.
  change ("bytes=0-" +:+ pretty (PROBE_SIZE_MB * 1024 * 1024))
    with "bytes=0-5242880".
  change ("bytes=0-" +:+ pretty (DEEP_SCAN_SIZE_MB * 1024 * 1024))
    with "bytes=0-104857600".
  destruct partial.
  - destruct (session_get rt tr url "bytes=0-5242880" 45) as [response|e] eqn:Hget;
      [|left; by destruct e].
    destruct (raise_for_status response); [|left; by case_match].
    destruct (content response) as [input|e] eqn:Hcontent; [|left; by destruct e].
    destruct (true && bool_decide (input = [])); [by left|].
    right. exists response, input. split_and!; [done..|].
    repeat case_match; simplify_eq/=; by rewrite <-?app_assoc.
  - destruct (session_get rt tr url "bytes=0-104857600" 120)
      as [response|e] eqn:Hget; [|left; by destruct e].
    destruct (raise_for_status response); [|left; by case_match].
    destruct (content response) as [input|e] eqn:Hcontent; [|left; by destruct e].
    right. exists response, input. split_and!; [done..|].
    simpl. repeat case_match; simplify_eq/=; by rewrite <-?app_assoc.
Qed.

(** X1. One call of [run_ffprobe] makes exactly one request, with the range
    and the timeout of its pass, and then starts the probe at most once;
    when it does, the probe gets the fixed command line and, on its standard
    input, exactly the bytes of the response. *)
Theorem run_ffprobe_effects (rt : runtime) (url : string) (partial : bool)
    (tr : list event) :
  (run_ffprobe rt url partial tr).2
  = tr ++ [EvGet url (attempt_range partial) (attempt_timeout partial)]
  ∨ ∃ response input,
      session_get rt tr url (attempt_range partial) (attempt_timeout partial)
      = Returned response
      ∧ content response = Returned input
      ∧ (run_ffprobe rt url partial tr).2
        = tr ++ [EvGet url (attempt_range partial) (attempt_timeout partial);
                 EvRun ffprobe_command input 60].
Proof. apply run_ffprobe_events. Qed.

Lemma run_ffprobe_attempt (rt : runtime) url partial tr :
  ∃ events,
    (run_ffprobe rt url partial tr).2 = tr ++ events
    ∧ attempt_events url partial events.
Proof.
  destruct (run_ffprobe_events rt url partial tr)
    as [->|(response & input & _ & _ & ->)]; eexists; split; try done.
  - by left.
  - right. by exists input.
Qed.

(** The ways in which [run_ffprobe] returns. *)
Lemma run_ffprobe_cases (rt : runtime) url partial tr o tr' :
  run_ffprobe rt url partial tr = (Returned o, tr') →
  (∃ msg, o = failure ("http_error: " +:+ msg))
  ∨ (∃ msg, o = failure ("general_error: " +:+ msg) ++ [("url", VStr url)])
  ∨ (partial = true ∧ o = failure "empty_response_body")
  ∨ (∃ text, o = failure ("ffprobe_error: " +:+ str_take 200 text))
  ∨ o = failure "no_media_streams"
  ∨ is_success rt partial o.
Proof.
  unfold run_ffprobe, try_except.
  destruct (run_ffprobe_try rt url partial tr) as [[o'|[msg|msg]] tr0] eqn:Htry.
  2:{ intros [= <- _]. left. by exists msg. }
  2:{ intros [= <- _]. right; left. by exists msg. }
  intros [= -> ->]. unfold run_ffprobe_try in Htry.
  apply io_bind_Returned in Htry as (c & tr0 & _ & H).
  destruct (partial && bool_decide (c = [])) eqn:Hempty.
  { apply io_ret_Returned in H as [<- _]. right; right; left.
    by apply andb_true_iff in Hempty as [-> _]. }
  apply io_bind_Returned in H as (result & tr1 & Hrun & H).
  injection Hrun as Hrun _.
  destruct (returncode result =? 0) eqn:Hcode; simpl in H.
  - apply io_bind_Returned in H as (data & tr2 & [Hdata _]%lift_Returned & H).
    destruct data as [| | | | | |d];
      try (apply lift_Returned in H as [[=] _]).
    destruct (truthy (default VNone (PyDict.get "streams" d))) eqn:Hstreams;
      simpl in H.
    + apply lift_Returned in H as [H _]. do 5 right. exists d.
      split_and!; [|done..].
      exists tr0. do 3 eexists. exists result. split_and!; [done| |done].
      by apply Z.eqb_eq.
    + apply io_ret_Returned in H as [<- _]. do 4 right. by left.
  - apply io_bind_Returned in H as (text & tr2 & _ & H).
    apply io_ret_Returned in H as [<- _]. do 3 right. left. by exists text.
Qed.

(** X3. A fetch that fails never reaches the probe. When [session.get]
    raises, when the status of the response is 4xx or 5xx, or when reading
    the body raises, the attempt returns an invalid outcome and the request
    is its only effect; the error is [http_error: ...] for an exception of
    the HTTP library and for a bad status (whose text names the status, the
    reason and the URL), and [general_error: ...] with the URL recorded for
    any other exception. *)
Theorem fetch_failure_not_probed (rt : runtime) (url : string)
    (partial : bool) (tr : list event) :
  let request := EvGet url (attempt_range partial) (attempt_timeout partial) in
  let caught (e : exn) : pydict pyval :=
    match e with
    | RequestException msg => failure ("http_error: " +:+ msg)
    | OtherException msg =>
        failure ("general_error: " +:+ msg) ++ [("url", VStr url)]
    end in
  (∀ e,
     session_get rt tr url (attempt_range partial) (attempt_timeout partial)
     = Raised e →
     run_ffprobe rt url partial tr = (Returned (caught e), tr ++ [request]))
  ∧ (∀ response,
       session_get rt tr url (attempt_range partial) (attempt_timeout partial)
       = Returned response →
       400 ≤ status_code response < 600 →
       run_ffprobe rt url partial tr
       = (Returned
            (failure ("http_error: " +:+ pretty (status_code response)
                      +:+ (if bool_decide (status_code response < 500)
                           then " Client Error: " else " Server Error: ")
                      +:+ reason response +:+ " for url: "
                      +:+ response_url response)),
          tr ++ [request]))
  ∧ (∀ response e,
       session_get rt tr url (attempt_range partial) (attempt_timeout partial)
       = Returned response →
       ¬ (400 ≤ status_code response < 600) →
       content response = Raised e →
       run_ffprobe rt url partial tr = (Returned (caught e), tr ++ [request])).
Proof.
  intros request caught. subst request.
  unfold run_ffprobe, try_except, run_ffprobe_try, mbind, io_bind,
    session_get_call, lift, attempt_range, attempt_timeout.
  change ("bytes=0-" +:+ pretty (PROBE_SIZE_MB * 1024 * 1024))
    with "bytes=0-5242880".
  change ("bytes=0-" +:+ pretty (DEEP_SCAN_SIZE_MB * 1024 * 1024))
    with "bytes=0-104857600".
  split_and!.
  - intros e He. destruct partial; rewrite He; by destruct e.
  - intros response Hget Hstatus. unfold raise_for_status.
    destruct partial; rewrite Hget;
      (destruct (decide (status_code response < 500)) as [Hlt|Hge];
       [rewrite (bool_decide_eq_true_2 (400 ≤ status_code response < 500))
          by lia;
        by rewrite (bool_decide_eq_true_2 (status_code response < 500))
       |rewrite (bool_decide_eq_false_2 (400 ≤ status_code response < 500))
          by lia;
        rewrite (bool_decide_eq_true_2 (500 ≤ status_code response < 600))
          by lia;
        by rewrite (bool_decide_eq_false_2 (status_code response < 500))]).
  - intros response e Hget Hstatus Hcontent. unfold raise_for_status.
    destruct partial; rewrite Hget;
      rewrite !bool_decide_eq_false_2 by lia; rewrite Hcontent; by destruct e.
Qed.

Lemma fetch_failure_not_probed_witness :
  run_ffprobe not_found "https://host/a.mp4" true []
  = (Returned
       (failure "http_error: 404 Client Error: Not Found for url: https://host/a.mp4"),
     [EvGet "https://host/a.mp4" "bytes=0-5242880" 45]).
Proof.
  destruct (fetch_failure_not_probed not_found "https://host/a.mp4" true [])
    as (_ & Hstatus & _).
  apply (Hstatus {| status_code := 404; reason := "Not Found";
                    response_url := "https://host/a.mp4";
                    content := Returned [] |}).
  - reflexivity.
  - simpl. lia.
Defined.

(** ** Effects and outcomes of a validation task *)

Lemma validate_url_entry_events (rt : runtime) url scan_mode tr :
  contains "no_media_yet" url || contains "tiny_file" url = false →
  ∃ events,
    (validate_url_entry rt url scan_mode tr).2 = tr ++ events
    ∧ if decide (scan_mode = "fast") then attempt_events url true events
      else if decide (scan_mode = "full") then attempt_events url false events
      else if decide (scan_mode = "two-pass") then
        attempt_events url true events
        ∨ ∃ fast deep, events = fast ++ deep
                       ∧ attempt_events url true fast
                       ∧ attempt_events url false deep
      else events = [].
Proof.
  intros Hurl. unfold validate_url_entry. rewrite Hurl.
  destruct (decide (scan_mode = "fast")) as [->|Hfast].
  { apply run_ffprobe_attempt. }
  rewrite bool_decide_eq_false_2 by done.
  destruct (decide (scan_mode = "full")) as [->|Hfull].
  { apply run_ffprobe_attempt. }
  rewrite bool_decide_eq_false_2 by done.
  destruct (decide (scan_mode = "two-pass")) as [->|Htwo].
  2:{ rewrite bool_decide_eq_false_2 by done. exists []. by rewrite app_nil_r. }
  simpl.
  destruct (run_ffprobe_outcome rt url true tr) as (fast & tr1 & Hfast' & Ho).
  destruct (run_ffprobe_attempt rt url true tr) as (e1 & Htr1 & He1).
  rewrite Hfast' in Htr1. simpl in Htr1. subst tr1.
  unfold mbind at 1, io_bind. rewrite Hfast'.
  destruct Ho as [(msg & rest & -> & _ & _)|Hok].
  - simpl. unfold mbind, io_bind, lift. simpl.
    destruct (contains "no_media_streams" msg).
    + destruct (run_ffprobe_attempt rt url false (tr ++ e1))
        as (e2 & Htr2 & He2).
      exists (e1 ++ e2). rewrite Htr2, app_assoc. split; [done|].
      right. by exists e1, e2.
    + exists e1. split; [done|]. by left.
  - destruct (success_fields _ _ _ Hok) as (-> & _). simpl.
    exists e1. split; [done|]. by left.
Qed.

Lemma attempt_events_length url partial events :
  attempt_events url partial events → (length events ≤ 2)%nat.
Proof. intros [->|[input ->]]; simpl; lia. Qed.

(** X4. The effects of a validation task on a URL that is not skipped,
    by scan mode: one attempt of the fast pass under [fast], one attempt of
    the deep pass under [full], the fast attempt followed by at most one
    deep attempt under [two-pass], and nothing under any other mode. An
    attempt is one request and at most one run of the probe, so a task makes
    at most two requests and starts at most two probes. *)
Theorem validate_url_entry_effects (rt : runtime) (url scan_mode : string)
    (tr : list event) :
  contains "no_media_yet" url || contains "tiny_file" url = false →
  ∃ events,
    (validate_url_entry rt url scan_mode tr).2 = tr ++ events
    ∧ (length events ≤ 4)%nat
    ∧ if decide (scan_mode = "fast") then attempt_events url true events
      else if decide (scan_mode = "full") then attempt_events url false events
      else if decide (scan_mode = "two-pass") then
        attempt_events url true events
        ∨ ∃ fast deep, events = fast ++ deep
                       ∧ attempt_events url true fast
                       ∧ attempt_events url false deep
      else events = [].
Proof.
  intros Hurl.
  destruct (validate_url_entry_events rt url scan_mode tr Hurl)
    as (events & Htr & Hevents).
  exists events. split_and!; [done| |done].
  repeat case_decide.
  - apply attempt_events_length in Hevents. lia.
  - apply attempt_events_length in Hevents. lia.
  - destruct Hevents as [Hfast|(fast & deep & -> & Hfast & Hdeep)].
    + apply attempt_events_length in Hfast. lia.
    + apply attempt_events_length in Hfast, Hdeep. rewrite length_app. lia.
  - subst. simpl. lia.
Qed.

Lemma validate_url_entry_effects_witness :
  ∃ events,
    (validate_url_entry
       (scripted [Byte.x00] 0 (VDict [("streams", VList [])]))
       "https://host/a.mp4" "two-pass" []).2
    = [] ++ events
    ∧ (length events ≤ 4)%nat
    ∧ (attempt_events "https://host/a.mp4" true events
       ∨ ∃ fast deep, events = fast ++ deep
                      ∧ attempt_events "https://host/a.mp4" true fast
                      ∧ attempt_events "https://host/a.mp4" false deep).
Proof.
  apply (validate_url_entry_effects
           (scripted [Byte.x00] 0 (VDict [("streams", VList [])]))
           "https://host/a.mp4" "two-pass" []).
  reflexivity.
Defined.

Section Report.
Variable rt : runtime.
Variables (url : string) (partial : bool) (tr : list event).
Variables (response : http_response) (input : bytes)
  (result : completed_process).
Let request := EvGet url (attempt_range partial) (attempt_timeout partial).
Hypothesis Hget :
  session_get rt tr url (attempt_range partial) (attempt_timeout partial)
  = Returned response.
Hypothesis Hstatus : ¬ (400 ≤ status_code response < 600).
Hypothesis Hcontent : content response = Returned input.
Hypothesis Hinput : partial = false ∨ input ≠ [].
Hypothesis Hrun :
  subprocess_run rt (tr ++ [request]) ffprobe_command input 60
  = Returned result.

(** [run_ffprobe] up to the return of the probe. *)
Lemma run_ffprobe_probed :
  run_ffprobe rt url partial tr
  = try_except
      (if negb (returncode result =? 0) then
         text ← lift (bytes_decode rt (stderr result));
         mret (failure ("ffprobe_error: " +:+ str_take 200 text))
       else
         data ← lift (json_loads rt (stdout result));
         match data with
         | VDict d =>
             if negb (truthy (default VNone (PyDict.get "streams" d))) then
               mret (failure "no_media_streams")
             else lift (build_metadata rt partial d)
         | _ => lift (attribute_error data "get")
         end)
      (fun e =>
         match e with
         | RequestException msg => mret (failure ("http_error: " +:+ msg))
         | OtherException msg =>
             mret (failure ("general_error: " +:+ msg) ++ [("url", VStr url)])
         end)
      (tr ++ [request; EvRun ffprobe_command input 60]).
Proof.
  subst request.
  unfold run_ffprobe, try_except, run_ffprobe_try, mbind at 1, io_bind at 1.
  assert ((if partial
           then response ← session_get_call rt url
                  ("bytes=0-" +:+ pretty (PROBE_SIZE_MB * 1024 * 1024)) 45;
                _ ← lift (raise_for_status response); lift (content response)
           else response ← session_get_call rt url
                  ("bytes=0-" +:+ pretty (DEEP_SCAN_SIZE_MB * 1024 * 1024)) 120;
                _ ← lift (raise_for_status response); lift (content response))
            tr
          = (Returned input,
             tr ++ [EvGet url (attempt_range partial) (attempt_timeout partial)]))
    as ->.
  { unfold mbind, io_bind, session_get_call, lift, raise_for_status.
    change ("bytes=0-" +:+ pretty (PROBE_SIZE_MB * 1024 * 1024))
      with (attempt_range true).
    change ("bytes=0-" +:+ pretty (DEEP_SCAN_SIZE_MB * 1024 * 1024))
      with (attempt_range false).
    change 45 with (attempt_timeout true).
    change 120 with (attempt_timeout false).
    destruct partial; rewrite Hget, !bool_decide_eq_false_2 by lia;
      by rewrite Hcontent. }
  assert (partial && bool_decide (input = []) = false) as ->.
  { destruct Hinput as [->|Hne]; [done|].
    rewrite bool_decide_eq_false_2 by done. apply andb_false_r. }
  unfold mbind at 1, io_bind at 1, subprocess_run_call.
  fold ffprobe_command. rewrite Hrun. by rewrite <-app_assoc.
Qed.
End Report.

(** X5. A probe report that is not a JSON object is a general error, with
    the URL recorded. When the probe exits with status 0 and [json.loads]
    raises on its output, the error is [general_error: ] followed by the
    message of the parser; when the output parses to something that is not
    an object, it is [general_error: ] followed by the message of the
    attribute error on [get]. *)
Theorem report_not_an_object (rt : runtime) (url : string) (partial : bool)
    (tr : list event) (response : http_response) (input : bytes)
    (result : completed_process) :
  session_get rt tr url (attempt_range partial) (attempt_timeout partial)
  = Returned response →
  ¬ (400 ≤ status_code response < 600) →
  content response = Returned input →
  partial = false ∨ input ≠ [] →
  subprocess_run rt
    (tr ++ [EvGet url (attempt_range partial) (attempt_timeout partial)])
    ffprobe_command input 60
  = Returned result →
  returncode result = 0 →
  (∀ msg,
     json_loads rt (stdout result) = Raised (OtherException msg) →
     (run_ffprobe rt url partial tr).1
     = Returned (failure ("general_error: " +:+ msg) ++ [("url", VStr url)]))
  ∧ (∀ data,
       json_loads rt (stdout result) = Returned data →
       (∀ d, data ≠ VDict d) →
       (run_ffprobe rt url partial tr).1
       = Returned
           (failure ("general_error: '" +:+ type_name data
                     +:+ "' object has no attribute 'get'")
            ++ [("url", VStr url)])).
Proof.
  intros Hget Hstatus Hcontent Hinput Hrun Hcode.
  rewrite (run_ffprobe_probed rt url partial tr response input result)
    by done.
  rewrite Hcode. simpl. unfold try_except, mbind, io_bind, lift. split.
  - intros msg ->. done.
  - intros data -> Hdata. destruct data; try done. by destruct (Hdata items).
Qed.

Lemma report_not_an_object_witness :
  (run_ffprobe garbled "https://host/a.mp4" true []).1
  = Returned
      (failure "general_error: Expecting property name: line 1 column 2"
       ++ [("url", VStr "https://host/a.mp4")]).
Proof.
  refine (proj1
    (report_not_an_object garbled "https://host/a.mp4" true []
       {| status_code := 200; reason := "OK";
          response_url := "https://host/a.mp4";
          content := Returned [Byte.x00] |}
       [Byte.x00]
       {| returncode := 0; stdout := [Byte.x7b]; stderr := [] |}
       _ _ _ _ _ _)
    "Expecting property name: line 1 column 2" _).
  - reflexivity.
  - simpl. lia.
  - reflexivity.
  - by right.
  - reflexivity.
  - reflexivity.
  - reflexivity.
Defined.

(** *** The error text of a failed probe *)

Lemma str_len_app (s1 s2 : string) :
  str_len (s1 +:+ s2) = (str_len s1 + str_len s2)%nat.
Proof.
  induction s1 as [|c s1 IH]; [done|].
  rewrite str_app_cons. cbn [str_len]. rewrite IH. lia.
Qed.

Lemma str_len_take (s : string) : ∀ n,
  str_len (str_take n s) = (n `min` str_len s)%nat.
Proof.
  induction s as [|c s IH]; intros n; cbn [str_take str_len].
  - by rewrite Nat.min_0_r.
  - destruct (is_continuation c) eqn:Hc; cbn [str_len].
    + by rewrite Hc, IH.
    + destruct n as [|n]; [done|]. cbn [str_len]. rewrite Hc, IH. lia.
Qed.

(** A slice ends between two characters. *)
Lemma str_take_split (s : string) : ∀ n,
  ∃ rest, s = str_take n s +:+ rest
          ∧ ∀ c rest', rest = String c rest' → is_continuation c = false.
Proof.
  induction s as [|c s IH]; intros n; cbn [str_take].
  - by exists "".
  - destruct (is_continuation c) eqn:Hc.
    + destruct (IH n) as (rest & Hs & Hrest). exists rest.
      split; [|done]. by rewrite str_app_cons, <-Hs.
    + destruct n as [|n].
      * exists (String c s). split; [done|]. by intros ? ? [= <- _].
      * destruct (IH n) as (rest & Hs & Hrest). exists rest.
        split; [|done]. by rewrite str_app_cons, <-Hs.
Qed.

Example str_take_accents :
  str_take 200 (accents 250) = accents 200
  ∧ String.length (accents 200) = 400%nat
  ∧ str_len (accents 200) = 200%nat.
Proof. by vm_compute. Qed.

(** X2. The error text that reports a failed run of the probe. When the
    probe exits with a status other than 0, the error of the attempt is
    [ffprobe_error: ] followed by the first 200 characters of the decoded
    error output of that run: the text itself when it has at most 200
    characters, and otherwise its first 200, cut between two characters.
    So the error text has at most 215 characters. *)
Theorem ffprobe_error_bounded (rt : runtime) (url : string) (partial : bool)
    (tr : list event) (response : http_response) (input : bytes)
    (result : completed_process) (text : string) :
  session_get rt tr url (attempt_range partial) (attempt_timeout partial)
  = Returned response →
  ¬ (400 ≤ status_code response < 600) →
  content response = Returned input →
  partial = false ∨ input ≠ [] →
  subprocess_run rt
    (tr ++ [EvGet url (attempt_range partial) (attempt_timeout partial)])
    ffprobe_command input 60
  = Returned result →
  returncode result ≠ 0 →
  bytes_decode rt (stderr result) = Returned text →
  ∃ head rest,
    text = head +:+ rest
    ∧ str_len head = (200 `min` str_len text)%nat
    ∧ (∀ c rest', rest = String c rest' → is_continuation c = false)
    ∧ (run_ffprobe rt url partial tr).1
      = Returned (failure ("ffprobe_error: " +:+ head))
    ∧ (str_len ("ffprobe_error: " +:+ head) ≤ 215)%nat.
Proof.
  intros Hget Hstatus Hcontent Hinput Hrun Hcode Htext.
  destruct (str_take_split text 200) as (rest & Hsplit & Hrest).
  exists (str_take 200 text), rest. split; [done|].
  split; [apply str_len_take|]. split; [done|]. split.
  - rewrite (run_ffprobe_probed rt url partial tr response input result)
      by done.
    apply Z.eqb_neq in Hcode. rewrite Hcode. cbn [negb].
    unfold try_except, mbind, io_bind, lift. by rewrite Htext.
  - rewrite str_len_app, str_len_take.
    change (str_len "ffprobe_error: ") with 15%nat. lia.
Qed.

Lemma ffprobe_error_bounded_witness :
  ∃ head rest,
    accents 250 = head +:+ rest
    ∧ str_len head = (200 `min` str_len (accents 250))%nat
    ∧ (∀ c rest', rest = String c rest' → is_continuation c = false)
    ∧ (run_ffprobe (failing_probe (accents 250)) "https://host/a.mp4"
         false []).1
      = Returned (failure ("ffprobe_error: " +:+ head))
    ∧ (str_len ("ffprobe_error: " +:+ head) ≤ 215)%nat.
Proof.
  refine (ffprobe_error_bounded (failing_probe (accents 250))
            "https://host/a.mp4" false []
            (ok_response "https://host/a.mp4" [Byte.x00]) [Byte.x00]
            {| returncode := 1; stdout := [];
               stderr := String.list_byte_of_string (accents 250) |}
            (accents 250) _ _ _ _ _ _ _).
  - reflexivity.
  - simpl. lia.
  - reflexivity.
  - by left.
  - reflexivity.
  - done.
  - by vm_compute.
Defined.

(** ** The fields of an outcome *)

(** The keys that an outcome of a validation task can have. *)
Lemma outcome_keys (rt : runtime) url scan_mode tr o tr' k :
  validate_url_entry rt url scan_mode tr = (Returned o, tr') →
  k ∈ PyDict.keys o →
  k ∈ ["is_valid"; "error"; "url"; "validation_method"; "file_size_bytes"]
  ∨ (∃ r, k = "format_" +:+ r) ∨ (∃ r, k = "stream_" +:+ r).
Proof.
  intros H.
  destruct (validate_url_entry_outcome rt url scan_mode tr)
    as (o' & tr'' & H' & Ho). rewrite H in H'. injection H' as <- <-.
  destruct Ho as [(msg & rest & -> & _ & [->|[u ->]])
                 |(partial & data & _ & _ & Hbuild)].
  - unfold PyDict.keys. simpl. rewrite !elem_of_cons. tauto.
  - unfold PyDict.keys. simpl. rewrite !elem_of_cons. tauto.
  - intros Hk. eapply build_metadata_keys in Hk; [|done].
    rewrite !elem_of_cons in *. tauto.
Qed.

Lemma outcome_NoDup (rt : runtime) url scan_mode tr o tr' :
  validate_url_entry rt url scan_mode tr = (Returned o, tr') →
  NoDup (PyDict.keys o).
Proof.
  intros H.
  destruct (validate_url_entry_outcome rt url scan_mode tr)
    as (o' & tr'' & H' & Ho). rewrite H in H'. injection H' as <- <-.
  destruct Ho as [Hfail|(partial & data & _ & _ & Hbuild)].
  - by apply failure_NoDup.
  - by eapply build_metadata_NoDup.
Qed.

(** X6. The record that the harvest loop builds for a completed task is the
    three fields of the source row followed by the fields of the outcome,
    each once: the keys of an outcome are [is_valid], [error], [url],
    [validation_method], [file_size_bytes] and keys that start with
    [format_] or [stream_], so no field of the outcome overwrites
    [original_url], [actual_url] or [media_type]. *)
Theorem record_keeps_source_fields (rt : runtime) (url scan_mode : string)
    (tr tr' : list event) (o : pydict pyval) (row : SourceEntry) :
  validate_url_entry rt url scan_mode tr = (Returned o, tr') →
  full_row_data row o = row_dict row ++ o
  ∧ NoDup (PyDict.keys (full_row_data row o))
  ∧ PyDict.get "original_url" (full_row_data row o)
    = Some (VStr (original_url row))
  ∧ PyDict.get "actual_url" (full_row_data row o)
    = Some (VStr (actual_url row))
  ∧ PyDict.get "media_type" (full_row_data row o)
    = Some (VStr (media_type row)).
Proof.
  intros H.
  assert (NoDup (PyDict.keys (row_dict row) ++ o.*1)) as Hnd.
  { apply NoDup_app. split_and!.
    - by apply (bool_decide_unpack _).
    - intros k Hrow Hk. apply (outcome_keys _ _ _ _ _ _ _ H) in Hk.
      unfold PyDict.keys in Hrow. simpl in Hrow.
      rewrite !elem_of_cons in Hrow. rewrite !elem_of_cons in Hk.
      destruct Hrow as [->|[->|[->|?%elem_of_nil]]]; [..|done];
        destruct Hk as [[?|[?|[?|[?|[?|?%elem_of_nil]]]]]|[[r ?]|[r ?]]];
        done.
    - by eapply outcome_NoDup. }
  assert (full_row_data row o = row_dict row ++ o) as Heq.
  { unfold full_row_data. by apply PyDictFacts.update_fresh. }
  rewrite Heq. by split_and!.
Qed.

Lemma record_keeps_source_fields_witness :
  let o := [("is_valid", VBool true);
            ("validation_method", VStr "partial");
            ("stream_0_unknown_index", VInt 0)] in
  full_row_data sample_row o = row_dict sample_row ++ o
  ∧ NoDup (PyDict.keys (full_row_data sample_row o))
  ∧ PyDict.get "original_url" (full_row_data sample_row o)
    = Some (VStr "https://host/page")
  ∧ PyDict.get "actual_url" (full_row_data sample_row o)
    = Some (VStr "https://host/a.mp4")
  ∧ PyDict.get "media_type" (full_row_data sample_row o)
    = Some (VStr "video").
Proof.
  intros o.
  refine (record_keeps_source_fields
            (scripted [Byte.x00] 0
               (VDict [("streams", VList [VDict [("index", VInt 0)]])]))
            "https://host/a.mp4" "fast" []
            [EvGet "https://host/a.mp4" "bytes=0-5242880" 45;
             EvRun ffprobe_command [Byte.x00] 60]
            o sample_row _).
  reflexivity.
Defined.

(** The pass that produced a valid outcome, by scan mode. *)
Lemma validate_url_entry_success_mode (rt : runtime) url scan_mode tr :
  ∃ o tr', validate_url_entry rt url scan_mode tr = (Returned o, tr')
    ∧ (is_failure o
       ∨ ∃ partial, is_success rt partial o
           ∧ (scan_mode = "fast" → partial = true)
           ∧ (scan_mode = "full" → partial = false)).
Proof.
  unfold validate_url_entry.
  destruct (contains "no_media_yet" url || contains "tiny_file" url).
  { eexists _, tr. split; [done|]. left. apply failure_intro. constructor. }
  case_bool_decide as Hfast.
  { destruct (run_ffprobe_outcome rt url true tr) as (o & tr' & -> & Ho).
    exists o, tr'. split; [done|]. destruct Ho; [by left|right].
    exists true. by subst. }
  case_bool_decide as Hfull.
  { destruct (run_ffprobe_outcome rt url false tr) as (o & tr' & -> & Ho).
    exists o, tr'. split; [done|]. destruct Ho; [by left|right].
    exists false. by subst. }
  case_bool_decide.
  2:{ eexists _, tr. split; [done|]. left. apply failure_intro. constructor. }
  destruct (run_ffprobe_outcome rt url true tr) as (fast & tr1 & Hfast' & Ho).
  unfold mbind at 1, io_bind. rewrite Hfast'.
  destruct Ho as [Hfail|Hok].
  - destruct Hfail as (msg & rest & -> & Hmsg & Hrest). simpl.
    unfold mbind, io_bind, lift. simpl.
    destruct (contains "no_media_streams" msg).
    + destruct (run_ffprobe_outcome rt url false tr1) as (o & tr' & -> & Ho).
      exists o, tr'. split; [done|]. destruct Ho; [by left|right].
      by exists false.
    + eexists _, tr1. split; [done|]. left. by exists msg, rest.
  - destruct (success_fields _ _ _ Hok) as (-> & _). simpl.
    exists fast, tr1. split; [done|]. right. by exists true.
Qed.

(** X7. The field [validation_method] names the pass that produced a valid
    outcome: it is [partial] under scan mode [fast], [full] under scan mode
    [full], and one of the two in every case; an invalid outcome has no
    [validation_method] field. *)
Theorem validation_method_names_pass (rt : runtime) (url scan_mode : string)
    (tr : list event) :
  ∃ o tr',
    validate_url_entry rt url scan_mode tr = (Returned o, tr')
    ∧ (PyDict.get "is_valid" o = Some (VBool false) →
       PyDict.get "validation_method" o = None)
    ∧ (PyDict.get "is_valid" o = Some (VBool true) →
       ∃ partial : bool,
         PyDict.get "validation_method" o
         = Some (VStr (if partial then "partial" else "full"))
         ∧ (scan_mode = "fast" → partial = true)
         ∧ (scan_mode = "full" → partial = false)).
Proof.
  destruct (validate_url_entry_success_mode rt url scan_mode tr)
    as (o & tr' & H & [Hfail|(partial & Hok & Hmode)]);
    exists o, tr'; (split; [done|]).
  - destruct (failure_fields _ Hfail) as [Hvalid _]. rewrite Hvalid.
    split; [|done]. intros _.
    destruct Hfail as (msg & rest & -> & _ & [->|[u ->]]); done.
  - destruct (success_fields _ _ _ Hok) as (Hvalid & _ & Hmethod).
    rewrite Hvalid. split; [done|]. intros _. by exists partial.
Qed.

(** The size field of the record of a successful probe. *)
Lemma build_metadata_file_size (rt : runtime) partial data o :
  build_metadata rt partial data = Returned o →
  PyDict.get "file_size_bytes" o
  = match PyDict.get "format" data with
    | Some (VDict fmt) => Some (default VNone (PyDict.get "size" fmt))
    | _ => None
    end.
Proof.
  rewrite build_metadata_eq. intros H.
  apply py_bind_Returned in H as (m & Hm & H).
  apply py_bind_Returned in H as (l & _ & H).
  rewrite (add_streams_get rt l 0 m o) by done.
  unfold with_format in Hm. destruct (PyDict.get "format" data) as [fmt|].
  - apply py_bind_Returned in Hm as (flat & Hflat & Hm).
    apply py_bind_Returned in Hm as (size & Hsize & Hm).
    injection Hm as <-. destruct fmt; try done. injection Hsize as <-.
    apply PyDictFacts.get_set_eq.
  - by injection Hm as <-.
Qed.

(** X8. In a valid outcome [file_size_bytes] is the [size] of the [format]
    object of the probe report: [None] when the object has no [size], and
    absent when the report has no [format] object. An invalid outcome has
    no such field. *)
Theorem file_size_bytes_from_format (rt : runtime) (url : string)
    (partial : bool) (tr tr' : list event) (o : pydict pyval) :
  run_ffprobe rt url partial tr = (Returned o, tr') →
  (PyDict.get "is_valid" o = Some (VBool false) →
   PyDict.get "file_size_bytes" o = None)
  ∧ (PyDict.get "is_valid" o = Some (VBool true) →
     ∃ data,
       probed rt data
       ∧ PyDict.get "file_size_bytes" o
         = match PyDict.get "format" data with
           | Some (VDict fmt) => Some (default VNone (PyDict.get "size" fmt))
           | _ => None
           end).
Proof.
  intros H.
  apply run_ffprobe_cases in H
    as [[m ->]|[[m ->]|[[_ ->]|[[text ->]|[->|Hok]]]]];
    try (split; [done|intros [=]]).
  destruct (success_fields _ _ _ Hok) as (Hvalid & _).
  rewrite Hvalid. split; [done|]. intros _.
  destruct Hok as (data & Hprobed & _ & Hbuild). exists data.
  split; [done|]. by eapply build_metadata_file_size.
Qed.

Lemma file_size_bytes_from_format_witness :
  let report :=
    VDict [("format", VDict [("size", VStr "1048576")]);
           ("streams", VList [VDict [("index", VInt 0)]])] in
  ∃ data,
    probed (scripted [Byte.x00] 0 report) data
    ∧ Some (VStr "1048576")
      = match PyDict.get "format" data with
        | Some (VDict fmt) => Some (default VNone (PyDict.get "size" fmt))
        | _ => None
        end.
Proof.
  intros report.
  refine (proj2
    (file_size_bytes_from_format (scripted [Byte.x00] 0 report)
       "https://host/a.mp4" false []
       [EvGet "https://host/a.mp4" "bytes=0-104857600" 120;
        EvRun ffprobe_command [Byte.x00] 60]
       [("is_valid", VBool true); ("validation_method", VStr "full");
        ("format_size", VStr "1048576");
        ("file_size_bytes", VStr "1048576");
        ("stream_0_unknown_index", VInt 0)] _) _); reflexivity.
Defined.

(** ** The result of flattening *)

Lemma elem_of_update {K V} `{EqDecision K} (k : K) (v : V)
    (d items : list (K * V)) :
  (k, v) ∈ PyDict.update d items → (k, v) ∈ d ∨ (k, v) ∈ items.
Proof.
  unfold PyDict.update. revert d.
  induction items as [|[k0 v0] items IH]; intros d; simpl; [by left|].
  intros [[Hin|Hin]%elem_of_set|Hin]%IH.
  - right. rewrite Hin. apply elem_of_cons. by left.
  - by left.
  - right. apply elem_of_cons. by right.
Qed.

Lemma elem_of_of_items {K V} `{EqDecision K} (k : K) (v : V)
    (items : list (K * V)) :
  (k, v) ∈ PyDict.of_items items → (k, v) ∈ items.
Proof.
  intros [Hin|Hin]%elem_of_update; [|done]. by apply elem_of_nil in Hin.
Qed.

Lemma length_set_le {K V} `{EqDecision K} (k : K) (v : V) (d : list (K * V)) :
  (length (PyDict.set k v d) ≤ S (length d))%nat.
Proof.
  induction d as [|[k' v'] d IH]; simpl; [lia|].
  case_decide; simpl; lia.
Qed.

Lemma length_of_items_le {K V} `{EqDecision K} (items : list (K * V)) :
  (length (PyDict.of_items items) ≤ length items)%nat.
Proof.
  unfold PyDict.of_items, PyDict.update.
  assert (∀ d : list (K * V),
    (length (foldl (fun acc kv => PyDict.set kv.1 kv.2 acc) d items)
     ≤ length d + length items)%nat) as Hgen.
  { induction items as [|[k v] items IH]; intros d; simpl; [lia|].
    specialize (IH (PyDict.set k v d)).
    pose proof (length_set_le k v d). lia. }
  apply (Hgen []).
Qed.

Lemma leaves_not_dict v path leaf :
  (path, leaf) ∈ leaves v → ∀ d, leaf ≠ VDict d.
Proof.
  revert path. induction v as [| | | | | |d IH] using pyval_ind; intros path;
    try (simpl; by intros [= -> ->]%list_elem_of_singleton).
  rewrite leaves_dict. intros Hin%list_elem_of_In%in_flat_map.
  destruct Hin as ([k v] & Hd%list_elem_of_In & Hin%list_elem_of_In).
  apply list_elem_of_fmap in Hin as ([path' leaf'] & [= _ ->] & Hin).
  rewrite Forall_forall in IH. by apply (IH (k, v) Hd path').
Qed.

Lemma flatten_entry_items sep v : ∀ key k leaf,
  (k, leaf) ∈ flatten_entry sep key v → (k, leaf) ∈ joined sep key v.
Proof.
  induction v as [| | | | | |d IH] using pyval_ind; intros key k leaf; try done.
  rewrite flatten_entry_dict, joined_dict. unfold flatten_dict, flatten_items.
  intros Hin%elem_of_of_items%list_elem_of_In%in_flat_map.
  destruct Hin as ([k' v'] & Hd & Hin%list_elem_of_In).
  apply list_elem_of_In, in_flat_map. exists (k', v'). split; [done|].
  apply list_elem_of_In. rewrite Forall_forall in IH.
  apply (IH (k', v')); [|done]. by apply list_elem_of_In.
Qed.

Lemma flatten_entry_length sep v : ∀ key,
  (length (flatten_entry sep key v) ≤ length (leaves v))%nat.
Proof.
  induction v as [| | | | | |d IH] using pyval_ind; intros key;
    try (simpl; lia).
  rewrite flatten_entry_dict, leaves_dict. unfold flatten_dict, flatten_items.
  etrans; [apply length_of_items_le|].
  induction d as [|[k v] d IHd]; [done|]. cbn [flat_map fst snd].
  apply Forall_cons in IH as [Hv Hd]. rewrite !length_app, length_fmap.
  specialize (IHd Hd). specialize (Hv (new_key key sep k)).
  cbn [fst snd] in Hv. lia.
Qed.

(** X9. Flattening invents nothing and leaves no nesting: every field of
    the result is a leaf of the input under the joined key of its path, so
    no value of the result is a dictionary, and the result has at most as
    many fields as the input has leaves. *)
Theorem flatten_dict_is_flat (d : pydict pyval) (parent_key sep : string) :
  (∀ k v, (k, v) ∈ flatten_dict d parent_key sep →
     (∃ path, (path, v) ∈ leaves (VDict d)
              ∧ k = path_key parent_key sep path)
     ∧ ∀ d', v ≠ VDict d')
  ∧ (length (flatten_dict d parent_key sep) ≤ length (leaves (VDict d)))%nat.
Proof.
  split.
  - intros k v Hin. rewrite <-flatten_entry_dict in Hin.
    apply flatten_entry_items in Hin. unfold joined in Hin.
    apply list_elem_of_fmap in Hin as ([path leaf] & [= -> ->] & Hin).
    split; [by exists path|]. by eapply leaves_not_dict.
  - rewrite <-flatten_entry_dict. apply flatten_entry_length.
Qed.

Lemma flatten_entry_leaf sep key v :
  (∀ d, v ≠ VDict d) → flatten_entry sep key v = [(key, v)].
Proof. intros Hv. destruct v; try done. by destruct (Hv items). Qed.

Lemma flatten_dict_of_flat (d : pydict pyval) (sep : string) :
  NoDup (PyDict.keys d) →
  (∀ k v, (k, v) ∈ d → ∀ d', v ≠ VDict d') →
  flatten_dict d "" sep = d.
Proof.
  intros Hnd Hflat. unfold flatten_dict, flatten_items.
  assert (flat_map (fun kv => flatten_entry sep (new_key "" sep kv.1) kv.2) d
          = d) as ->; [|by apply PyDictFacts.of_items_NoDup].
  clear Hnd. induction d as [|[k v] d IH]; [done|]. cbn [flat_map].
  rewrite IH.
  - rewrite flatten_entry_leaf; [done|].
    apply (Hflat k). apply list_elem_of_here.
  - intros k' v' Hin. apply (Hflat k'). by apply list_elem_of_further.
Qed.

(** X10. Flattening is idempotent: flattening a result of [flatten_dict]
    again, with the default empty parent key, gives it back unchanged. *)
Theorem flatten_dict_idempotent (d : pydict pyval) (parent_key sep : string) :
  flatten_dict (flatten_dict d parent_key sep) "" sep
  = flatten_dict d parent_key sep.
Proof.
  apply flatten_dict_of_flat.
  - apply flatten_dict_NoDup.
  - intros k v Hin. rewrite <-flatten_entry_dict in Hin.
    apply flatten_entry_items in Hin. unfold joined in Hin.
    apply list_elem_of_fmap in Hin as ([path leaf] & [= -> ->] & Hin).
    by eapply leaves_not_dict.
Qed.

(** X11. Under a parent key that is not empty, every key of the result
    starts with the parent key and the separator; and the result is empty
    exactly when the input has no leaf (it is empty, or holds nothing but
    empty dictionaries, at any depth). *)
Theorem flatten_dict_prefix_and_empty (d : pydict pyval)
    (parent_key sep : string) :
  (parent_key ≠ "" →
   ∀ k, k ∈ PyDict.keys (flatten_dict d parent_key sep) →
        String.prefix (parent_key +:+ sep) k = true)
  ∧ (flatten_dict d parent_key sep = [] ↔ has_leaf (VDict d) = false).
Proof.
  split; [|apply flatten_dict_nil].
  intros Hpk k [r ->]%flatten_dict_keys; [|done].
  rewrite <-str_app_assoc. apply prefix_app.
Qed.

Lemma flatten_dict_prefix_and_empty_witness :
  String.prefix ("format" +:+ "_") "format_tags_title" = true.
Proof.
  refine (proj1
    (flatten_dict_prefix_and_empty
       [("tags", VDict [("title", VStr "A"); ("empty", VDict [])])]
       "format" "_") _ "format_tags_title" _).
  - done.
  - by apply (bool_decide_unpack _).
Defined.

(** ** Resuming from the output file *)





Section Reload.
Variable rt : runtime.


End Reload.



Lemma sample_store_eq :
  sample_store
  = [(Some "https://host/a.mp4",
      row_dict sample_row
      ++ [("is_valid", VBool true); ("validation_method", VStr "partial")]);
     (Some "https://host/b.mp3",
      row_dict other_row ++ failure "no_media_streams")].
Proof. reflexivity. Qed.





(** ** What a reloaded record holds *)





(** ** The header of the output file *)

Lemma ascii_compare_refl (c : Ascii.ascii) : Ascii.compare c c = Eq.
Proof. unfold Ascii.compare. apply N.compare_refl. Qed.

Lemma ascii_compare_Lt_trans (c1 c2 c3 : Ascii.ascii) :
  Ascii.compare c1 c2 = Lt → Ascii.compare c2 c3 = Lt →
  Ascii.compare c1 c3 = Lt.
Proof.
  unfold Ascii.compare. rewrite !N.compare_lt_iff. lia.
Qed.

Lemma string_compare_Lt_trans (s1 : string) : ∀ s2 s3,
  String.compare s1 s2 = Lt → String.compare s2 s3 = Lt →
  String.compare s1 s3 = Lt.
Proof.
  induction s1 as [|c1 s1 IH]; intros [|c2 s2] [|c3 s3]; simpl; try done.
  destruct (Ascii.compare c1 c2) eqn:H12; try done;
    destruct (Ascii.compare c2 c3) eqn:H23; try done.
  - apply Ascii.compare_eq_iff in H12 as ->. rewrite H23. apply IH.
  - apply Ascii.compare_eq_iff in H12 as ->. by rewrite H23.
  - apply Ascii.compare_eq_iff in H23 as <-. by rewrite H12.
  - by rewrite (ascii_compare_Lt_trans c1 c2 c3).
Qed.

Lemma string_leb_trans (s1 s2 s3 : string) :
  String.leb s1 s2 = true → String.leb s2 s3 = true →
  String.leb s1 s3 = true.
Proof.
  unfold String.leb.
  destruct (String.compare s1 s2) eqn:H12; try done;
    destruct (String.compare s2 s3) eqn:H23; try done; intros _ _.
  - apply String.compare_eq_iff in H12 as ->. by rewrite H23.
  - apply String.compare_eq_iff in H12 as ->. by rewrite H23.
  - apply String.compare_eq_iff in H23 as <-. by rewrite H12.
  - by rewrite (string_compare_Lt_trans s1 s2 s3).
Qed.

#[global] Instance header_le_trans : Transitive header_le.
Proof.
  intros h1 h2 h3 [H12|[H12 L12]] [H23|[H23 L23]]; unfold header_le.
  - left. lia.
  - left. lia.
  - left. lia.
  - right. split; [lia|]. by apply (string_leb_trans h1 h2 h3).
Qed.

#[global] Instance header_le_total : Total header_le.
Proof.
  intros h1 h2. unfold header_le.
  destruct (lt_eq_lt_dec (header_rank h1) (header_rank h2)) as [[Hlt|Heq]|Hgt].
  - left. by left.
  - destruct (String.leb_total h1 h2) as [Hle|Hle].
    + left. by right.
    + right. right. by split.
  - right. by left.
Qed.

Lemma header_rank_0 (h : string) : header_rank h = 0%nat → h = "original_url".
Proof.
  unfold header_rank, preferred_order. cbn [list_find].
  case_decide as Hh; [done|]. cbn [fmap option_fmap option_map].
  repeat (case_decide; [done|]; cbn [fmap option_fmap option_map prod_map fst snd]).
  done.
Qed.

Lemma StronglySorted_sorted_headers results :
  StronglySorted header_le (sorted_headers results).
Proof. unfold sorted_headers. apply (StronglySorted_merge_sort _). Qed.

(** X15. The header of the output file lists every key of every record
    exactly once, sorted by the pair of its position in the preferred
    order (7 for a key that is not in it) and its name: the preferred
    columns that occur come first, in the preferred order, and the other
    keys follow in the order of their names. In particular, whenever a
    record has the key [original_url], that is the first column. *)
Theorem sorted_headers_order (results : list (pydict pyval)) :
  NoDup (sorted_headers results)
  ∧ (∀ h, h ∈ sorted_headers results
          ↔ ∃ r, r ∈ results ∧ h ∈ PyDict.keys r)
  ∧ StronglySorted header_le (sorted_headers results)
  ∧ ((∃ r, r ∈ results ∧ "original_url" ∈ PyDict.keys r) →
     head (sorted_headers results) = Some "original_url").
Proof.
  split; [apply NoDup_sorted_headers|].
  split; [apply elem_of_sorted_headers|].
  split; [apply StronglySorted_sorted_headers|].
  intros Hin%elem_of_sorted_headers.
  pose proof (StronglySorted_sorted_headers results) as Hsorted.
  destruct (sorted_headers results) as [|h0 rest]; [by apply elem_of_nil in Hin|].
  cbn [head]. f_equal.
  apply elem_of_cons in Hin as [->|Hin]; [done|].
  apply StronglySorted_inv in Hsorted as [_ Hfirst].
  rewrite Forall_forall in Hfirst. specialize (Hfirst _ Hin).
  apply header_rank_0.
  destruct Hfirst as [Hlt|[Heq _]].
  - change (header_rank "original_url") with 0%nat in Hlt. lia.
  - exact Heq.
Qed.

Lemma sorted_headers_order_witness :
  head (sorted_headers (PyDict.values sample_store)) = Some "original_url".
Proof.
  refine (proj2 (proj2 (proj2
    (sorted_headers_order (PyDict.values sample_store)))) _).
  exists (row_dict other_row ++ failure "no_media_streams"). split.
  - unfold PyDict.values. rewrite sample_store_eq. cbn [fmap list_fmap snd].
    apply list_elem_of_further, list_elem_of_here.
  - by apply (bool_decide_unpack _).
Defined.

(** ** Loading what is not there *)

Lemma load_raised (e : exn) (rows : list (pydict pyval)) :
  foldl (fun acc row => processed_urls ← acc; load_row processed_urls row)
        (Raised e) rows
  = Raised e.
Proof. induction rows as [|row rows IH]; [done|]. apply IH. Qed.

Lemma dict_reader_keys (t : csv_table) (row : pydict pyval) (h : string) :
  row ∈ dict_reader t → h ∈ PyDict.keys row → h ∈ fieldnames t.
Proof.
  unfold dict_reader. intros (cells & -> & _)%list_elem_of_fmap.
  rewrite PyDictFacts.elem_of_keys_of_items, fmap_app, elem_of_app.
  intros [Hin|Hin].
  - apply list_elem_of_fmap in Hin as ([h' v] & -> & Hin).
    by apply elem_of_zip_l in Hin.
  - rewrite <-list_fmap_compose in Hin.
    apply list_elem_of_fmap in Hin as (h' & -> & Hin).
    by apply (subseteq_drop (length cells)).
Qed.

Lemma load_row_key_error (acc : store) (row : pydict pyval) :
  "actual_url" ∉ PyDict.keys row →
  load_row acc row = Raised (OtherException "'actual_url'").
Proof.
  intros Hkey%PyDictFacts.get_None. unfold load_row.
  by rewrite parse_is_valid_get, Hkey.
Qed.

Lemma load_rows_key_error (rows : list (pydict pyval)) (acc : store) :
  rows ≠ [] →
  Forall (fun row => "actual_url" ∉ PyDict.keys row) rows →
  foldl (fun acc row => processed_urls ← acc; load_row processed_urls row)
        (Returned acc) rows
  = Raised (OtherException "'actual_url'").
Proof.
  destruct rows as [|row rows]; [done|]. intros _ [Hrow _]%Forall_cons.
  cbn [foldl].
  change (Returned acc ≫= (fun processed_urls => load_row processed_urls row))
    with (load_row acc row).
  rewrite load_row_key_error by done. apply load_raised.
Qed.

(** X16. Loading the output at the start of a run: when there is no output
    file, the store starts empty. When the file has no column
    [actual_url], the first row that is not blank ends the run with a
    [KeyError]; a file of blank rows only gives the empty store. *)
Theorem load_processed_urls_edge (disk : pydict csv_table) :
  (PyDict.get OUTPUT_CSV disk = None →
   load_processed_urls disk = Returned [])
  ∧ ∀ t, PyDict.get OUTPUT_CSV disk = Some t →
      "actual_url" ∉ fieldnames t →
      load_processed_urls disk
      = if bool_decide (Forall (fun cells => cells = []) (table_rows t))
        then Returned []
        else Raised (OtherException "'actual_url'").
Proof.
  split; [by unfold load_processed_urls; intros ->|].
  intros t Ht Hcol. unfold load_processed_urls. rewrite Ht.
  case_bool_decide as Hblank.
  - unfold dict_reader. rewrite filter_none; [done|].
    rewrite Forall_forall in Hblank.
    intros cells Hin Hne. by apply Hne, Hblank.
  - apply load_rows_key_error.
    + unfold dict_reader. intros Hnil%fmap_nil_inv. apply Hblank.
      apply Forall_forall. intros cells Hin.
      destruct (decide (cells = [])) as [|Hne]; [done|].
      assert (cells ∈ filter (fun cells => cells ≠ []) (table_rows t)) as Hf
        by by apply list_elem_of_filter.
      rewrite Hnil in Hf. by apply elem_of_nil in Hf.
    + apply Forall_forall. intros row Hrow Hin. apply Hcol.
      by apply (dict_reader_keys t row).
Qed.

Lemma load_processed_urls_edge_witness :
  load_processed_urls
    [(OUTPUT_CSV, {| fieldnames := ["url"; "is_valid"];
                     table_rows := [[]; ["https://host/a.mp4"; "True"]] |})]
  = Raised (OtherException "'actual_url'").
Proof.
  refine (proj2 (load_processed_urls_edge _)
            {| fieldnames := ["url"; "is_valid"];
               table_rows := [[]; ["https://host/a.mp4"; "True"]] |} _ _).
  - reflexivity.
  - by apply (bool_decide_unpack _).
Defined.

(** ** What a scan pass changes *)

Lemma merged_cons (s : store) completed completions :
  merged s (completed :: completions)
  = merged (PyDict.set (Some (actual_url completed.1))
              (full_row_data completed.1 completed.2) s) completions.
Proof. done. Qed.

Lemma get_merged_notin (s : store) completions key :
  key ∉ completion_key <$> completions →
  PyDict.get key (merged s completions) = PyDict.get key s.
Proof.
  revert s. induction completions as [|c cs IH]; intros s Hkey; [done|].
  rewrite fmap_cons in Hkey. apply not_elem_of_cons in Hkey as [Hne Hkey].
  rewrite merged_cons, IH by done. by apply PyDictFacts.get_set_ne.
Qed.

Lemma elem_of_keys_merged (s : store) completions key :
  key ∈ PyDict.keys (merged s completions)
  ↔ key ∈ PyDict.keys s ∨ key ∈ completion_key <$> completions.
Proof.
  revert s. induction completions as [|c cs IH]; intros s.
  - rewrite fmap_nil, elem_of_nil. cbn. tauto.
  - rewrite merged_cons, IH, PyDictFacts.elem_of_keys_set, fmap_cons,
      elem_of_cons. tauto.
Qed.

Section PassFacts.
Variable rt : runtime.

Lemma save_progress_other_files st path :
  path ≠ OUTPUT_CSV →
  PyDict.get path (files (save_progress rt st)) = PyDict.get path (files st).
Proof.
  intros Hpath. unfold save_progress, save_results_to_csv. cbn [files].
  case_bool_decide; [done|]. by apply PyDictFacts.get_set_ne.
Qed.

Lemma harvest_other_files completions : ∀ i st path,
  path ≠ OUTPUT_CSV →
  PyDict.get path (files (harvest rt i completions st))
  = PyDict.get path (files st).
Proof.
  induction completions as [|c cs IH]; intros i st path Hpath; [done|].
  cbn [harvest]. rewrite IH by done. unfold harvest_one.
  case_bool_decide; [|done]. by rewrite save_progress_other_files.
Qed.

Lemma scan_pass_processed_urls completions st :
  processed_urls (scan_pass rt completions st)
  = merged (processed_urls st) completions.
Proof.
  unfold scan_pass, save_progress. cbn [processed_urls].
  apply harvest_processed_urls.
Qed.
End PassFacts.

(** X17. What a scan pass leaves alone: the record of every URL that no
    task of the pass completed is unchanged, no URL is dropped from the
    store, and no file but the output file is written (the input table in
    particular). *)
Theorem scan_pass_frame (rt : runtime)
    (completions : list (SourceEntry * pydict pyval)) (st : main_state) :
  (∀ key, key ∉ completion_key <$> completions →
     PyDict.get key (processed_urls (scan_pass rt completions st))
     = PyDict.get key (processed_urls st))
  ∧ (∀ key, key ∈ PyDict.keys (processed_urls st) →
       key ∈ PyDict.keys (processed_urls (scan_pass rt completions st)))
  ∧ (∀ path, path ≠ OUTPUT_CSV →
       PyDict.get path (files (scan_pass rt completions st))
       = PyDict.get path (files st)).
Proof.
  rewrite scan_pass_processed_urls. split_and!.
  - intros key. apply get_merged_notin.
  - intros key Hkey. apply elem_of_keys_merged. by left.
  - intros path Hpath. unfold scan_pass.
    by rewrite save_progress_other_files, harvest_other_files.
Qed.





(** X19. One pass clears the queue: when every pending row is among the
    completed tasks of a pass, no row is pending after it. *)
Theorem scan_pass_clears_pending (rt : runtime)
    (source_rows : list SourceEntry)
    (completions : list (SourceEntry * pydict pyval)) (st : main_state) :
  (∀ row, row ∈ rows_to_validate source_rows (processed_urls st) →
          row ∈ completions.*1) →
  rows_to_validate source_rows
    (processed_urls (scan_pass rt completions st)) = [].
Proof.
  intros Hall. rewrite scan_pass_processed_urls.
  unfold rows_to_validate at 1. apply filter_none. intros row Hrow.
  rewrite not_false_iff_true. apply mem_true, elem_of_keys_merged.
  destruct (PyDict.mem (Some (actual_url row)) (processed_urls st)) eqn:Hmem.
  - left. by apply mem_true.
  - right.
    assert (row ∈ rows_to_validate source_rows (processed_urls st)) as Hq.
    { unfold rows_to_validate. by apply list_elem_of_filter. }
    apply Hall, list_elem_of_fmap in Hq as (c & -> & Hc).
    apply list_elem_of_fmap. by exists c.
Qed.

Lemma scan_pass_clears_pending_witness :
  rows_to_validate [sample_row; other_row]
    (processed_urls
       (scan_pass not_found
          [(other_row, failure "no_media_streams");
           (sample_row, failure "no_media_streams")]
          {| processed_urls := []; files := []; save_calls := [] |}))
  = [].
Proof.
  apply (scan_pass_clears_pending not_found [sample_row; other_row]).
  intros row Hrow. cbn [processed_urls] in Hrow.
  change (rows_to_validate [sample_row; other_row] [])
    with [sample_row; other_row] in Hrow.
  cbn [fmap list_fmap fst].
  apply elem_of_cons in Hrow as [->|Hrow].
  - apply list_elem_of_further, list_elem_of_here.
  - apply elem_of_cons in Hrow as [->|Hrow]; [apply list_elem_of_here|].
    by apply elem_of_nil in Hrow.
Defined.

(** ** The queue of an iteration *)

Lemma elem_of_rows_to_rescan source_rows (s : store) row :
  row ∈ rows_to_rescan source_rows s
  ↔ row ∈ source_rows
    ∧ ∃ r, PyDict.get (Some (actual_url row)) s = Some r
           ∧ record_is_valid r = false.
Proof.
  unfold rows_to_rescan. rewrite list_elem_of_filter.
  destruct (PyDict.get (Some (actual_url row)) s) as [r|].
  - rewrite negb_true_iff. split.
    + intros [? ?]. eauto.
    + intros [? (r' & [= <-] & ?)]. done.
  - split; [by intros [? ?]|]. by intros [_ (r & ? & _)].
Qed.

Lemma build_queue_Some source_rows (s : store) rescan queue :
  build_queue source_rows s rescan = Some queue →
  queue ≠ []
  ∧ (queue = rows_to_validate source_rows s
     ∨ (rows_to_validate source_rows s = [] ∧ rescan = Some true
        ∧ queue = rows_to_rescan source_rows s)).
Proof.
  unfold build_queue. case_bool_decide as Hpending.
  - case_bool_decide; [done|]. destruct rescan as [[|]|]; try done.
    cbn [default negb]. case_bool_decide; [done|].
    intros [= <-]. split; [done|]. by right.
  - intros [= <-]. split; [done|]. by left.
Qed.

(** X20. A valid result is final. The queue of an iteration is never
    empty and holds either the pending rows or, when nothing is pending and
    the operator agrees, the rows whose record is not valid: rows are never
    mixed, and no row with a valid record is ever queued. So when the
    completed tasks of the pass are those of the queue, every record that
    was valid before the pass is the same record after it. *)
Theorem valid_results_are_final (rt : runtime)
    (source_rows queue : list SourceEntry) (rescan : option bool)
    (completions : list (SourceEntry * pydict pyval)) (st : main_state) :
  build_queue source_rows (processed_urls st) rescan = Some queue →
  (∀ row, row ∈ completions.*1 → row ∈ queue) →
  queue ≠ []
  ∧ (∀ row r, row ∈ queue →
       PyDict.get (Some (actual_url row)) (processed_urls st) = Some r →
       record_is_valid r = false)
  ∧ ∀ url r,
      PyDict.get (Some url) (processed_urls st) = Some r →
      record_is_valid r = true →
      PyDict.get (Some url) (processed_urls (scan_pass rt completions st))
      = Some r.
Proof.
  intros [Hne Hqueue]%build_queue_Some Hcompleted.
  assert (∀ row r, row ∈ queue →
            PyDict.get (Some (actual_url row)) (processed_urls st) = Some r →
            record_is_valid r = false) as Hinvalid.
  { intros row r Hrow Hr. destruct Hqueue as [->|(_ & _ & ->)].
    - unfold rows_to_validate in Hrow.
      apply list_elem_of_filter in Hrow as [Hmem%mem_false _]. congruence.
    - apply elem_of_rows_to_rescan in Hrow as [_ (r' & Hr' & ?)]. congruence. }
  split; [done|]. split; [done|]. intros url r Hr Hvalid.
  rewrite scan_pass_processed_urls, get_merged_notin; [done|].
  intros (c & [= ->] & Hc)%list_elem_of_fmap.
  assert (c.1 ∈ queue) as Hrow.
  { apply Hcompleted, list_elem_of_fmap. by exists c. }
  specialize (Hinvalid _ _ Hrow Hr). congruence.
Qed.

Lemma valid_results_are_final_witness :
  [other_row] ≠ []
  ∧ (∀ row r, row ∈ [other_row] →
       PyDict.get (Some (actual_url row)) sample_store = Some r →
       record_is_valid r = false)
  ∧ ∀ url r,
      PyDict.get (Some url) sample_store = Some r →
      record_is_valid r = true →
      PyDict.get (Some url)
        (processed_urls
           (scan_pass not_found [(other_row, failure "no_media_streams")]
              {| processed_urls := sample_store; files := [];
                 save_calls := [] |}))
      = Some r.
Proof.
  apply (valid_results_are_final not_found [sample_row; other_row]
           [other_row] (Some true)
           [(other_row, failure "no_media_streams")]
           {| processed_urls := sample_store; files := [];
              save_calls := [] |}).
  - reflexivity.
  - intros row Hrow. exact Hrow.
Defined.

(** X21. Invalid records that cannot be scanned again: when nothing is
    pending and every input row has a valid record, the loop is left
    whatever the operator answers, although the store may still hold
    invalid records (of URLs that are no longer in the input table); they
    are counted, and asked about, but never scanned again. *)
Theorem orphaned_invalid_records (source_rows : list SourceEntry)
    (s : store) (rescan : option bool) :
  (∀ row, row ∈ source_rows →
     ∃ r, PyDict.get (Some (actual_url row)) s = Some r
          ∧ record_is_valid r = true) →
  build_queue source_rows s rescan = None.
Proof.
  intros Hvalid. unfold build_queue.
  rewrite bool_decide_eq_true_2.
  2:{ unfold rows_to_validate. apply filter_none. intros row Hrow.
      destruct (Hvalid row Hrow) as (r & Hr & _).
      rewrite not_false_iff_true. apply mem_true.
      apply PyDictFacts.get_Some_elem in Hr. apply list_elem_of_fmap.
      by exists (Some (actual_url row), r). }
  case_bool_decide; [done|]. destruct (negb (default false rescan)); [done|].
  rewrite bool_decide_eq_true_2; [done|].
  destruct (rows_to_rescan source_rows s) as [|row rows] eqn:Hrows; [done|].
  assert (row ∈ rows_to_rescan source_rows s) as Hrow
    by (rewrite Hrows; apply list_elem_of_here).
  apply elem_of_rows_to_rescan in Hrow as [Hrow (r & Hr & Hinvalid)].
  destruct (Hvalid row Hrow) as (r' & Hr' & Hvalid'). congruence.
Qed.

Lemma orphaned_invalid_records_witness :
  invalid_count sample_store = 1%nat
  ∧ build_queue [sample_row] sample_store (Some true) = None.
Proof.
  split; [reflexivity|].
  apply (orphaned_invalid_records [sample_row] sample_store (Some true)).
  intros row ->%list_elem_of_singleton. eexists. split; reflexivity.
Defined.

(** ** The file while a pass is running *)

(** X22. What is on disk while a pass is running: after [n] completions
    of the harvest loop (before the final save) the output file holds the
    store as it was after the last full batch, that is after the first
    [50 * (n / 50)] completions; before the first batch is full, the file
    is as the pass found it. An interruption loses the results of at most
    49 completed tasks. *)
Theorem interrupted_pass_file (rt : runtime)
    (completions : list (SourceEntry * pydict pyval)) (st : main_state) :
  PyDict.get OUTPUT_CSV (files (harvest rt 0 completions st))
  = (if bool_decide (length completions < 50)%nat
     then PyDict.get OUTPUT_CSV (files st)
     else Some (results_table rt
                  (PyDict.values
                     (merged (processed_urls st)
                        (take (50 * (length completions `div` 50))
                              completions)))))
  ∧ (length completions - 50 * (length completions `div` 50) < 50)%nat.
Proof.
  split; [apply harvest_files|].
  pose proof (Nat.div_mod_eq (length completions) 50).
  pose proof (Nat.mod_upper_bound (length completions) 50). lia.
Qed.
